(** * SmartPave Analytics: the synthetic data generator

    A shallow embedding of [scripts/generate_data.py]: the road network,
    pavement condition, maintenance and traffic generators, with the
    properties of the generated tables proved over it.

    Modelling conventions.
    - Python [int] values are [Z]; loop counters and Poisson draws, which
      are never negative, are [N].
    - Python [float] values are modelled by exact rationals [Q]: the
      rounding error of individual IEEE operations is not represented.
      Two expressions of the maintenance pass are decided by that
      rounding on some inputs (the drop compared with 15, and the
      truncated product of the cost); module [F64] gives them over
      binary64 numbers as well.  The lemmas on a single step speak of
      the rational model; the theorems on the maintenance table bracket
      the drop and bound the cost, so that they hold under both readings
      for scores with one decimal, as the condition generator rounds
      them.
    - The global NumPy generator is an explicit state threaded through a
      small state monad [Gen]; the samplers are parameters of the
      development.
    - A [DataFrame] is the list of its rows, a row is a record. *)

From Stdlib Require Import ZArith NArith QArith Qround List Bool Lia Lqa.
From Stdlib Require Import Sorted Permutation FinFun.
From Stdlib Require Import Ascii String DecimalString DecimalN.
From Stdlib Require PrimFloat Uint63 FloatOps SpecFloat.
Import ListNotations.

Local Open Scope Z_scope.

(* ------------------------------------------------------------------ *)
(** * Python numeric built-ins *)

Module Py.

(** [a < b] on floats. *)
Definition Qltb (a b : Q) : bool :=
  match (a ?= b)%Q with Lt => true | _ => false end.

(** [a > b] on floats. *)
Definition Qgtb (a b : Q) : bool := Qltb b a.

(** Two-argument [max]: the later argument wins only when strictly larger. *)
Definition max (a b : Q) : Q := if Qgtb b a then b else a.

(** Two-argument [min]: the later argument wins only when strictly smaller. *)
Definition min (a b : Q) : Q := if Qltb b a then b else a.

Definition maxZ (a b : Z) : Z := if b >? a then b else a.

(** [int(x)] on a float: truncation toward zero. *)
Definition int (x : Q) : Z :=
  if Qle_bool 0 x then Qfloor x else Qceiling x.

(** Nearest integer, ties to the even neighbour. *)
Definition round_half_even (x : Q) : Z :=
  let f := Qfloor x in
  let r := (x - inject_Z f)%Q in
  if Qltb r (1 # 2) then f
  else if Qgtb r (1 # 2) then f + 1
  else if Z.even f then f else f + 1.

(** [round(x, ndigits)]. *)
Definition round (x : Q) (ndigits : N) : Q :=
  let scale := inject_Z (10 ^ Z.of_N ndigits) in
  (inject_Z (round_half_even (x * scale)) / scale)%Q.

(** Zero-padded decimal formatting, [f"{n:0Wd}"] for a non-negative [n]. *)
Definition digits (n : N) : string := NilEmpty.string_of_uint (N.to_uint n).

Fixpoint zeros (k : nat) : string :=
  match k with
  | O => EmptyString
  | S k' => String "0" (zeros k')
  end.

Definition format_d (width : nat) (n : N) : string :=
  let s := digits n in
  (zeros (width - String.length s) ++ s)%string.

(** Reading a decimal numeral back, leading zeros allowed. *)
Definition parse_d (s : string) : option N :=
  option_map N.of_uint (NilEmpty.uint_of_string s).

End Py.

Infix "<?" := Py.Qltb (at level 70, no associativity) : Q_scope.
Infix ">?" := Py.Qgtb (at level 70, no associativity) : Q_scope.

(* ------------------------------------------------------------------ *)
(** * Calendar dates

    Every timestamp of the script is a midnight [datetime]; the [.days]
    of a difference is the difference of proleptic Gregorian ordinals. *)

Record datetime := mkdate { year : Z; month : Z; day : Z }.

Definition is_leap (y : Z) : bool :=
  (y mod 4 =? 0) && (negb (y mod 100 =? 0) || (y mod 400 =? 0)).

Definition days_before_year (y : Z) : Z :=
  let p := y - 1 in p * 365 + p / 4 - p / 100 + p / 400.

Definition days_before_month (y m : Z) : Z :=
  nth (Z.to_nat m) [0; 0; 31; 59; 90; 120; 151; 181; 212; 243; 273; 304; 334] 0
  + (if (m >? 2) && is_leap y then 1 else 0).

Definition toordinal (d : datetime) : Z :=
  days_before_year (year d) + days_before_month (year d) (month d) + day d.

(** [(a - b).days] *)
Definition days_between (a b : datetime) : Z := toordinal a - toordinal b.

(** [a <= b] on datetimes. *)
Definition date_leb (a b : datetime) : bool :=
  (year a <? year b)
  || ((year a =? year b)
      && ((month a <? month b)
          || ((month a =? month b) && (day a <=? day b)))).

(* ------------------------------------------------------------------ *)
(** * Tables *)

Inductive road_type := Highway | Arterial | Collector | Local.

Inductive repair_type :=
  resurfacing | pothole_patch | crack_sealing | preventive_maintenance.

Definition repair_type_name (r : repair_type) : string :=
  match r with
  | resurfacing => "resurfacing"
  | pothole_patch => "pothole_patch"
  | crack_sealing => "crack_sealing"
  | preventive_maintenance => "preventive_maintenance"
  end.

(** A row of the road network table. *)
Record road_row := mkroad {
  rd_road_id : string;
  rd_segment_id : string;
  rd_road_type : road_type;
  rd_lanes : Z;
  rd_latitude : Q;
  rd_longitude : Q;
  rd_traffic_volume : Z;
  rd_segment_length_miles : Q
}.

(** A row of the pavement condition table. *)
Record condition_row := mkcond {
  c_road_id : string;
  c_segment_id : string;
  c_date : datetime;
  c_lanes : Z;
  c_condition_score : Q;
  c_roughness_index : Q;
  c_cracking_percent : Q;
  c_pothole_count : Z;
  c_precipitation : Q;
  c_freeze_thaw_cycles : Z;
  c_temperature_avg : Q;
  c_traffic_volume : Z;
  c_road_type : road_type;
  c_latitude : Q;
  c_longitude : Q
}.

(** A row of the maintenance table. *)
Record maintenance_row := mkmaint {
  m_maintenance_id : string;
  m_road_id : string;
  m_segment_id : string;
  m_date : datetime;
  m_repair_type : repair_type;
  m_cost : Z;
  m_effectiveness_score : Q;
  m_contractor : string;
  m_weather_delay_days : Z;
  m_lanes_affected : Z;
  m_condition_before : Q;
  m_traffic_volume : Z
}.

(** A row of the traffic table. *)
Record traffic_row := mktraffic {
  t_road_id : string;
  t_segment_id : string;
  t_year : Z;
  t_month : Z;
  t_avg_daily_traffic : Z;
  t_peak_hour_factor : Q;
  t_truck_percentage : Q
}.

(** [x in xs] on integers. *)
Definition in_list (x : Z) (xs : list Z) : bool := existsb (Z.eqb x) xs.

(** [range(lo, hi)] *)
Definition range (lo hi : Z) : list Z :=
  map (fun k => lo + Z.of_nat k) (seq 0 (Z.to_nat (hi - lo))).

Definition rangeN (lo hi : N) : list N :=
  map (fun k => (lo + N.of_nat k)%N) (seq 0 (N.to_nat (hi - lo))).

(* ------------------------------------------------------------------ *)
(** * Maintenance rules

    The part of [generate_maintenance_records] that draws no random
    number: the trigger, the category chain and the cost; over exact
    rationals.  Comparisons of a score with a constant come out the same
    on doubles.  The subtraction of the drop and the product of the cost
    are rounded on doubles: a drop of exactly 15 may come out above 15,
    and the truncated cost may be 1 lower (see [F64] below). *)

Definition needs_repair
    (last_repair_date : option datetime) (last_condition : Q)
    (row : condition_row) : bool :=
  let condition_drop := (last_condition - c_condition_score row)%Q in
  (c_condition_score row <? 60)%Q
  || (c_pothole_count row >? 5)
  || (condition_drop >? 15)%Q
  || match last_repair_date with
     | Some d => days_between (c_date row) d >? 365
     | None => false
     end.

(** Category, base cost and effectiveness baseline of a repair. *)
Definition repair_plan (row : condition_row) : repair_type * Z * Q :=
  if (c_condition_score row <? 40)%Q then (resurfacing, 50000, 9 # 10)
  else if c_pothole_count row >? 3 then (pothole_patch, 5000, 7 # 10)
  else if (c_cracking_percent row >? 20)%Q then (crack_sealing, 15000, 8 # 10)
  else (preventive_maintenance, 8000, 6 # 10).

Definition repair_category (row : condition_row) : repair_type :=
  fst (fst (repair_plan row)).

Definition total_cost (base_cost : Z) (row : condition_row) : Z :=
  let lane_factor := (inject_Z (c_lanes row) * (2 # 10))%Q in
  let traffic_factor := (inject_Z (c_traffic_volume row) / 100000)%Q in
  Py.int (inject_Z base_cost * (1 + lane_factor + traffic_factor))%Q.

(** The running state of the maintenance pass. *)
Record scan := mkscan {
  maintenance_records : list maintenance_row;
  maintenance_id : N;
  last_repair_date : option datetime;
  last_condition : Q
}.

(** [condition_df['segment_id'].unique()]: distinct values, in order of
    first appearance. *)
Fixpoint unique_from (seen xs : list string) : list string :=
  match xs with
  | [] => []
  | x :: rest =>
      if existsb (String.eqb x) seen then unique_from seen rest
      else x :: unique_from (x :: seen) rest
  end.

Definition unique (xs : list string) : list string := unique_from [] xs.

(** [sort_values('date')] *)
Fixpoint insert_by_date (r : condition_row) (rows : list condition_row) :=
  match rows with
  | [] => [r]
  | r' :: rest =>
      if toordinal (c_date r') <=? toordinal (c_date r)
      then r' :: insert_by_date r rest
      else r :: r' :: rest
  end.

Definition sort_by_date (rows : list condition_row) : list condition_row :=
  fold_right insert_by_date [] rows.

(** [condition_df[condition_df['segment_id'] == segment_id]] *)
Definition rows_of_segment (condition_df : list condition_row)
    (segment_id : string) : list condition_row :=
  filter (fun r => String.eqb (c_segment_id r) segment_id) condition_df.

(* ------------------------------------------------------------------ *)
(** * The trigger and the cost over binary64

    The expressions of [needs_repair] and [total_cost] as the interpreter
    computes them: on IEEE doubles, every operation rounded to nearest.
    A score of the table is the double nearest to its decimal, which is
    what [round(x, 1)] returns. *)

Module F64.

(** The double of an [int] of [0 .. 2^53]: exact. *)
Definition of_int (n : Z) : PrimFloat.float :=
  PrimFloat.of_uint63 (Uint63.of_Z n).

(** The double nearest to [q], for a numerator and a denominator of
    [0 .. 2^53]: both convert exactly and the division rounds once. *)
Definition of_Q (q : Q) : PrimFloat.float :=
  PrimFloat.div (of_int (Qnum q)) (of_int (Zpos (Qden q))).

(** [min(100, x)] *)
Definition min_100 (x : PrimFloat.float) : PrimFloat.float :=
  if PrimFloat.ltb x (of_int 100) then x else of_int 100.

(** [int(x)] of a finite double: truncation toward zero. *)
Definition int (x : PrimFloat.float) : Z :=
  match FloatOps.Prim2SF x with
  | SpecFloat.S754_finite sign m e =>
      let magnitude :=
        if 0 <=? e then Zpos m * 2 ^ e else Zpos m / 2 ^ (- e) in
      if sign then - magnitude else magnitude
  | _ => 0
  end.

Definition needs_repair
    (last_repair_date : option datetime) (last_condition : PrimFloat.float)
    (row : condition_row) : bool :=
  let condition_score := of_Q (c_condition_score row) in
  let condition_drop := PrimFloat.sub last_condition condition_score in
  PrimFloat.ltb condition_score (of_int 60)
  || (c_pothole_count row >? 5)
  || PrimFloat.ltb (of_int 15) condition_drop
  || match last_repair_date with
     | Some d => days_between (c_date row) d >? 365
     | None => false
     end.


Definition total_cost (base_cost : Z) (row : condition_row) : Z :=
  let lane_factor := PrimFloat.mul (of_int (c_lanes row)) (of_Q (2 # 10)) in
  let traffic_factor :=
    PrimFloat.div (of_int (c_traffic_volume row)) (of_int 100000) in
  int (PrimFloat.mul (of_int base_cost)
         (PrimFloat.add (PrimFloat.add (of_int 1) lane_factor)
            traffic_factor)).

End F64.

(* ------------------------------------------------------------------ *)
(** * The reporting periods of the condition generator *)

Definition start_date : datetime := mkdate 2020 1 1.
Definition end_date : datetime := mkdate 2024 12 31.

(** The update of [current_date] at the end of the [while] body. *)
Definition next_date (current_date : datetime) : datetime :=
  let '(mkdate y m d) := current_date in
  if in_list m [1; 4; 7; 10] then
    if m =? 10 then mkdate (y + 1) 1 d else mkdate y (m + 3) d
  else
    if m =? 12 then mkdate (y + 1) 1 d else mkdate y (m + 1) d.

(** The values [current_date] takes while [current_date <= end_date]. *)
Fixpoint dates_while (fuel : nat) (current_date : datetime) : list datetime :=
  match fuel with
  | O => []
  | S fuel' =>
      if date_leb current_date end_date
      then current_date :: dates_while fuel' (next_date current_date)
      else []
  end.

Definition report_dates : list datetime := dates_while 64 start_date.

(** Traffic seasonality. *)
Definition traffic_seasonal_factor (month : Z) : Q :=
  if in_list month [6; 7; 8] then 11 # 10
  else if in_list month [12; 1; 2] then 9 # 10
  else 1.

Definition growth_factor (year : Z) : Q :=
  (1 + inject_Z (year - 2020) * (2 # 100))%Q.

(** Condition seasonality and road-category adjustment. *)
Definition condition_seasonal_factor (month : Z) : Q :=
  if in_list month [12; 1; 2] then -5
  else if in_list month [6; 7; 8] then 2
  else 0.

Definition road_factor (t : road_type) : Q :=
  match t with
  | Highway => 5
  | Local => -3
  | _ => 0
  end.

Definition road_name (road_id : N) : string :=
  ("R" ++ Py.format_d 3 road_id)%string.

Definition segment_name (road_name : string) (seg_id : N) : string :=
  (road_name ++ "_S" ++ Py.format_d 3 seg_id)%string.

Definition maintenance_name (maintenance_id : N) : string :=
  ("M" ++ Py.format_d 6 maintenance_id)%string.

Definition n_roads : N := 200.

(* ------------------------------------------------------------------ *)
(** * The NumPy interface and the generator monad *)

(** The part of NumPy the script calls.  [rng] is the state of the global
    generator; every sampler returns its draw and the next state.
    [np_choice_index n p] draws a position in a list of [n] items with
    weights [p] (no weights: uniform). *)
Class Numpy (rng : Type) := {
  np_seed : Z -> rng;
  np_normal : Q -> Q -> rng -> Q * rng;
  np_poisson : Q -> rng -> N * rng;
  np_exponential : Q -> rng -> Q * rng;
  np_uniform : Q -> Q -> rng -> Q * rng;
  np_choice_index : nat -> list Q -> rng -> nat * rng;
  np_sin : Q -> Q;
  np_pi : Q
}.

Definition Gen (rng A : Type) : Type := rng -> A * rng.

Definition ret {rng A} (a : A) : Gen rng A := fun s => (a, s).

Definition bind {rng A B} (m : Gen rng A) (k : A -> Gen rng B) : Gen rng B :=
  fun s => let (a, s') := m s in k a s'.

Notation "x <- m ;; k" := (bind m (fun x => k))
  (at level 61, m at next level, right associativity).

(** A [for] loop whose body appends one item per iteration. *)
Fixpoint for_each {rng A B} (xs : list A) (body : A -> Gen rng B)
    : Gen rng (list B) :=
  match xs with
  | [] => ret []
  | x :: rest =>
      b <- body x ;;
      bs <- for_each rest body ;;
      ret (b :: bs)
  end.

(** A [for] loop that updates loop-carried variables. *)
Fixpoint for_fold {rng A S} (xs : list A) (body : S -> A -> Gen rng S)
    (st : S) : Gen rng S :=
  match xs with
  | [] => ret st
  | x :: rest => st' <- body st x ;; for_fold rest body st'
  end.

Section Generator.

Context {rng : Type} {NP : Numpy rng}.

(** [np.random.choice(items)]; the list is [first :: others]. *)
Definition np_choice {A} (first : A) (others : list A) (p : list Q)
    : Gen rng A :=
  i <- np_choice_index (S (List.length others)) p ;;
  ret (nth i (first :: others) first).

(** ** Road network *)

Definition network_segment (road_name : string) (seg_id : N)
    : Gen rng road_row :=
  let segment_id := segment_name road_name seg_id in
  n1 <- np_normal 0 (5 # 10) ;;
  let base_lat := ((398283 # 10000) + n1)%Q in
  n2 <- np_normal 0 (5 # 10) ;;
  let base_lon := (- (985795 # 10000) + n2)%Q in
  n3 <- np_normal 0 (1 # 100) ;;
  let lat := (base_lat + n3)%Q in
  n4 <- np_normal 0 (1 # 100) ;;
  let lon := (base_lon + n4)%Q in
  lanes <- np_choice 2 [3; 4; 5; 6]
             [1 # 10; 2 # 10; 4 # 10; 25 # 100; 5 # 100] ;;
  road_type <- np_choice Highway [Arterial; Collector; Local]
                 [2 # 10; 3 # 10; 3 # 10; 2 # 10] ;;
  traffic_volume <-
    match road_type with
    | Highway => np_normal 75000 15000
    | Arterial => np_normal 35000 8000
    | Collector => np_normal 15000 4000
    | Local => np_normal 5000 2000
    end ;;
  let traffic_volume := Py.maxZ 1000 (Py.int traffic_volume) in
  len <- np_uniform (1 # 10) (5 # 10) ;;
  ret (mkroad road_name segment_id road_type lanes lat lon
         traffic_volume len).

Definition network_road (road_id : N) : Gen rng (list road_row) :=
  let road_name := road_name road_id in
  n_segments_road <- np_poisson 40 ;;
  for_each (rangeN 1 (n_segments_road + 1)) (network_segment road_name).

Definition generate_road_network : Gen rng (list road_row) :=
  per_road <- for_each (rangeN 1 (n_roads + 1)) network_road ;;
  ret (List.concat per_road).

(** ** Pavement condition *)

Definition condition_record (current_date : datetime) (road : road_row)
    : Gen rng condition_row :=
  let base_score := 85%Q in
  let month := month current_date in
  let seasonal_factor := condition_seasonal_factor month in
  let traffic_factor := (- inject_Z (rd_traffic_volume road) / 100000)%Q in
  let road_factor := road_factor (rd_road_type road) in
  random_factor <- np_normal 0 3 ;;
  let condition_score :=
    Py.max 0 (Py.min 100
      (base_score + seasonal_factor + traffic_factor + road_factor
       + random_factor)%Q) in
  n1 <- np_normal 0 10 ;;
  let roughness_index := Py.max 50 (200 - condition_score + n1)%Q in
  n2 <- np_normal 0 2 ;;
  let cracking_percent :=
    Py.max 0 ((100 - condition_score) * (3 # 10) + n2)%Q in
  k <- np_poisson (5 # 10) ;;
  let pothole_count :=
    Py.maxZ 0 (Py.int ((100 - condition_score) / 20 + inject_Z (Z.of_N k))%Q) in
  precipitation <- np_exponential (5 # 10) ;;
  freeze_thaw_cycles <-
    (if in_list month [12; 1; 2]
     then (c <- np_poisson 2 ;; ret (Z.of_N c))
     else ret 0) ;;
  n3 <- np_normal 0 5 ;;
  ret (mkcond (rd_road_id road) (rd_segment_id road) current_date
         (rd_lanes road)
         (Py.round condition_score 1)
         (Py.round roughness_index 1)
         (Py.round cracking_percent 1)
         pothole_count
         (Py.round precipitation 2)
         freeze_thaw_cycles
         (50 + 30 * np_sin (2 * np_pi * inject_Z month / 12) + n3)%Q
         (rd_traffic_volume road) (rd_road_type road)
         (rd_latitude road) (rd_longitude road)).

Definition generate_pavement_condition_data (roads_df : list road_row)
    : Gen rng (list condition_row) :=
  per_date <- for_each report_dates
                (fun current_date =>
                   for_each roads_df (condition_record current_date)) ;;
  ret (List.concat per_date).

(** ** Maintenance *)

(** The body of the loop over the observations of one segment. *)
Definition maintenance_step (st : scan) (row : condition_row)
    : Gen rng scan :=
  if needs_repair (last_repair_date st) (last_condition st) row then
    let '(repair_type, base_cost, effectiveness) := repair_plan row in
    weather_delay <-
      (if (c_precipitation row >? 1)%Q
       then (d <- np_poisson 1 ;; ret (Z.of_N d))
       else ret 0) ;;
    let total_cost := total_cost base_cost row in
    contractor <-
      np_choice "ABC_Contractors"%string
        ["XYZ_Construction"; "Premier_Paving"; "Metro_Maintenance";
         "Highway_Experts"]%string [] ;;
    noise <- np_normal 0 (1 # 10) ;;
    let record :=
      mkmaint (maintenance_name (maintenance_id st))
        (c_road_id row) (c_segment_id row) (c_date row)
        repair_type total_cost (effectiveness + noise)%Q contractor
        weather_delay (c_lanes row) (c_condition_score row)
        (c_traffic_volume row) in
    ret (mkscan (maintenance_records st ++ [record])
           (maintenance_id st + 1)
           (Some (c_date row))
           (Py.min 100 (c_condition_score row + 20)%Q))
  else
    ret (mkscan (maintenance_records st) (maintenance_id st)
           (last_repair_date st) (c_condition_score row)).

(** The body of the loop over the segments. *)
Definition maintenance_segment (condition_df : list condition_row)
    (st : scan) (segment_id : string) : Gen rng scan :=
  let segment_data := sort_by_date (rows_of_segment condition_df segment_id) in
  for_fold segment_data maintenance_step
    (mkscan (maintenance_records st) (maintenance_id st) None 100).

Definition generate_maintenance_records (condition_df : list condition_row)
    : Gen rng (list maintenance_row) :=
  st <- for_fold (unique (map c_segment_id condition_df))
          (maintenance_segment condition_df)
          (mkscan [] 1 None 100) ;;
  ret (maintenance_records st).

(** ** Traffic *)

Definition traffic_record (road : road_row) (year month : Z)
    : Gen rng traffic_row :=
  let seasonal_factor := traffic_seasonal_factor month in
  let growth_factor := growth_factor year in
  noise <- np_normal 1 (1 # 10) ;;
  let monthly_volume :=
    Py.int (inject_Z (rd_traffic_volume road) * seasonal_factor
            * growth_factor * noise)%Q in
  peak <- np_uniform (8 # 10) (12 # 10) ;;
  truck <- np_uniform (5 # 100) (15 # 100) ;;
  ret (mktraffic (rd_road_id road) (rd_segment_id road) year month
         monthly_volume peak truck).

Definition traffic_road (road : road_row) : Gen rng (list traffic_row) :=
  per_year <- for_each (range 2020 2025)
                (fun year => for_each (range 1 13) (traffic_record road year)) ;;
  ret (List.concat per_year).

Definition generate_traffic_data (roads_df : list road_row)
    : Gen rng (list traffic_row) :=
  per_road <- for_each roads_df traffic_road ;;
  ret (List.concat per_road).

(** ** The whole pass *)

Record datasets := mkdatasets {
  road_network : list road_row;
  pavement_condition : list condition_row;
  maintenance : list maintenance_row;
  traffic_volume : list traffic_row
}.

Definition main : Gen rng datasets :=
  roads_df <- generate_road_network ;;
  condition_df <- generate_pavement_condition_data roads_df ;;
  maintenance_df <- generate_maintenance_records condition_df ;;
  traffic_df <- generate_traffic_data roads_df ;;
  ret (mkdatasets roads_df condition_df maintenance_df traffic_df).

(** [np.random.seed(n)] replaces the state of the global generator.
    (The module also seeds Python's own [random], from which nothing is
    ever drawn.) *)
Definition np_random_seed (n : Z) : Gen rng unit := fun _ => (tt, np_seed n).

(** The script: the module-level seeding, then [main]. *)
Definition script : Gen rng datasets :=
  _ <- np_random_seed 42 ;;
  main.

(** A run of the script in an interpreter whose global generator starts in
    the state [ambient]. *)
Definition run_script (ambient : rng) : datasets := fst (script ambient).

End Generator.

(* ------------------------------------------------------------------ *)
(** * A small executable generator

    A linear congruential generator standing in for NumPy's, used to run
    the stages on concrete inputs. *)

Module Lcg.

Definition next (s : N) : N := ((s * 1103515245 + 12345) mod 2147483648)%N.

(** A rational in [0, 1). *)
Definition unit_draw (s : N) : Q := inject_Z (Z.of_N (s mod 1000)) / 1000.

#[global] Instance numpy : Numpy N := {|
  np_seed := fun n => Z.to_N (Z.abs n);
  np_normal := fun mu sigma s => ((mu + sigma * (6 * unit_draw s - 3))%Q, next s);
  np_poisson := fun lam s => ((Z.to_N (Qfloor lam) + s mod 3)%N, next s);
  np_exponential := fun scale s => ((scale * 2 * unit_draw s)%Q, next s);
  np_uniform := fun lo hi s => ((lo + (hi - lo) * unit_draw s)%Q, next s);
  np_choice_index := fun n _ s => (N.to_nat ((s / 65536) mod N.of_nat n), next s);
  np_sin := fun x => (x - x * x * x / 6)%Q;
  np_pi := 355 # 113
|}.

End Lcg.

(* ------------------------------------------------------------------ *)
(** * Vocabulary of the statements *)

(** The columns of a maintenance record that are copied or computed from
    the observation it was created at, [id] being the counter then. *)
Definition recorded_from (id : N) (row : condition_row)
    (m : maintenance_row) : Prop :=
  m_maintenance_id m = maintenance_name id
  /\ m_road_id m = c_road_id row
  /\ m_segment_id m = c_segment_id row
  /\ m_date m = c_date row
  /\ m_repair_type m = repair_category row
  /\ m_cost m = total_cost (snd (fst (repair_plan row))) row
  /\ m_lanes_affected m = c_lanes row
  /\ m_condition_before m = c_condition_score row
  /\ m_traffic_volume m = c_traffic_volume row.

(** The counter value an identifier such as ["M000042"] was made from. *)
Definition maintenance_number (id : string) : option N :=
  match id with
  | String "M" rest => Py.parse_d rest
  | _ => None
  end.

(** The records so far are numbered 1, 2, ... and the counter is the next
    number. *)
Definition numbered (st : scan) : Prop :=
  (1 <= maintenance_id st)%N
  /\ map m_maintenance_id (maintenance_records st)
     = map maintenance_name (rangeN 1 (maintenance_id st)).

(** The (road, segment) key of a network row. *)
Definition road_key (r : road_row) : string * string :=
  (rd_road_id r, rd_segment_id r).

(** A network row as [generate_road_network] builds it: named after one
    of the roads and a sequence number, with a lane count of the fixed
    list and a floored traffic baseline. *)
Definition network_row_ok (r : road_row) : Prop :=
  (exists road_id seg_id,
      In road_id (rangeN 1 (n_roads + 1))
      /\ rd_road_id r = road_name road_id
      /\ rd_segment_id r = segment_name (rd_road_id r) seg_id)
  /\ In (rd_lanes r) [2; 3; 4; 5; 6]
  /\ 1000 <= rd_traffic_volume r.

(** The columns a condition row copies from its network row. *)
Definition observes (road : road_row) (c : condition_row) : Prop :=
  c_road_id c = rd_road_id road
  /\ c_segment_id c = rd_segment_id road
  /\ c_lanes c = rd_lanes road
  /\ c_traffic_volume c = rd_traffic_volume road
  /\ c_road_type c = rd_road_type road.

(** The clamps of a condition row. *)
Definition metrics_in_range (c : condition_row) : Prop :=
  (0 <= c_condition_score c <= 100)%Q
  /\ 0 <= c_pothole_count c
  /\ 0 <= c_freeze_thaw_cycles c
  /\ (0 <= c_cracking_percent c)%Q
  /\ (50 <= c_roughness_index c)%Q.

(** The key columns of a traffic row. *)
Definition traffic_key (t : traffic_row) : string * string * Z * Z :=
  (t_road_id t, t_segment_id t, t_year t, t_month t).

(** One key per segment, year of 2020..2024 and month of 1..12, in the
    order of the three nested loops. *)
Definition traffic_keys (roads_df : list road_row)
    : list (string * string * Z * Z) :=
  flat_map
    (fun road =>
       flat_map
         (fun year =>
            map (fun month => (rd_road_id road, rd_segment_id road, year, month))
              (range 1 13))
         (range 2020 2025))
    roads_df.

(** The keys of the rows of road [road_id] when it has [count] segments. *)
Definition road_segment_keys (road_id count : N) : list (string * string) :=
  map (fun seg_id =>
         (road_name road_id, segment_name (road_name road_id) seg_id))
    (rangeN 1 (count + 1)).

(** The key columns of a condition row. *)
Definition condition_key (c : condition_row) : datetime * string * string :=
  (c_date c, c_road_id c, c_segment_id c).

(** The base cost of each repair category. *)
Definition base_cost_of (t : repair_type) : Z :=
  match t with
  | resurfacing => 50000
  | pothole_patch => 5000
  | crack_sealing => 15000
  | preventive_maintenance => 8000
  end.

(** The least cost a repair of each category can have on a generated
    segment (two lanes, a traffic baseline of 1000). *)
Definition least_cost_of (t : repair_type) : Z :=
  match t with
  | resurfacing => 70500
  | pothole_patch => 7050
  | crack_sealing => 21150
  | preventive_maintenance => 11280
  end.

(** The contractor pool. *)
Definition contractor_pool : list string :=
  ["ABC_Contractors"; "XYZ_Construction"; "Premier_Paving";
   "Metro_Maintenance"; "Highway_Experts"]%string.

(** [a] is recorded no later than [b]. *)
Definition recorded_not_after (a b : maintenance_row) : Prop :=
  toordinal (m_date a) <= toordinal (m_date b).

(** [ms] are records made at observations of [rows], in the order of
    the observations and at most one for each. *)
Inductive follows : list condition_row -> list maintenance_row -> Prop :=
  | follows_nil : follows [] []
  | follows_skip row rows ms : follows rows ms -> follows (row :: rows) ms
  | follows_take row rows m ms :
      (exists id, recorded_from id row m) ->
      follows rows ms -> follows (row :: rows) (m :: ms).

(** The columns a maintenance record copies from the observation it is
    created at. *)
Definition created_at (row : condition_row) (m : maintenance_row) : Prop :=
  m_road_id m = c_road_id row
  /\ m_segment_id m = c_segment_id row
  /\ m_date m = c_date row
  /\ m_condition_before m = c_condition_score row.



(** ** The script with its column lookups

    [pd.DataFrame(rows)] has the columns of its rows, and none when
    [rows] is empty: [df[name]] then raises [KeyError]. *)

Inductive exn :=
  | KeyError (key : string)
  | DatabaseError (message : string).

Inductive outcome (A : Type) :=
  | Returned (a : A)
  | Raised (e : exn).

Arguments Returned {A} a.
Arguments Raised {A} e.

(** [df[name]] for the frame of [rows], [f] reading the column of a row. *)
Definition column {A B} (name : string) (f : A -> B) (rows : list A)
    : outcome (list B) :=
  match rows with
  | [] => Raised (KeyError name)
  | _ :: _ => Returned (map f rows)
  end.

(** [.sum()] and [.mean()] of a float column, [.sum()] of an integer one. *)
Definition sumQ (xs : list Q) : Q := fold_right Qplus 0%Q xs.
Definition sumZ (xs : list Z) : Z := fold_right Z.add 0 xs.
Definition meanQ (xs : list Q) : Q :=
  (sumQ xs / inject_Z (Z.of_nat (List.length xs)))%Q.

(** The figures [main] prints at the end. *)
Record summary := mksummary {
  total_segments : nat;
  total_miles : Q;
  condition_records : nat;
  maintenance_count : nat;
  total_maintenance_cost : Z;
  average_condition_score : Q;
  average_repair_cost : Q
}.

Section Script.

Context {rng : Type} {NP : Numpy rng}.

(** [main], with the column lookups of the maintenance stage and of the
    summary: the first statement of [generate_maintenance_records] reads
    [condition_df['segment_id']], and the summary reads
    [roads_df['segment_length_miles']], [maintenance_df['cost']] and
    [condition_df['condition_score']]. *)
Definition main_run : Gen rng (outcome (datasets * summary)) :=
  roads_df <- generate_road_network ;;
  condition_df <- generate_pavement_condition_data roads_df ;;
  match column "segment_id" c_segment_id condition_df with
  | Raised e => ret (Raised e)
  | Returned _ =>
      maintenance_df <- generate_maintenance_records condition_df ;;
      traffic_df <- generate_traffic_data roads_df ;;
      match column "segment_length_miles" rd_segment_length_miles roads_df with
      | Raised e => ret (Raised e)
      | Returned miles =>
          match column "cost" m_cost maintenance_df with
          | Raised e => ret (Raised e)
          | Returned costs =>
              match column "condition_score" c_condition_score condition_df with
              | Raised e => ret (Raised e)
              | Returned scores =>
                  ret (Returned
                         (mkdatasets roads_df condition_df maintenance_df
                            traffic_df,
                          mksummary (List.length roads_df) (sumQ miles)
                            (List.length condition_df)
                            (List.length maintenance_df)
                            (sumZ costs) (meanQ scores)
                            (meanQ (map inject_Z costs))))
              end
          end
      end
  end.

End Script.

(** A degenerate generator: every draw is the least or central value, so
    no road gets a segment. *)
Module Degenerate.

#[global] Instance numpy : Numpy unit := {|
  np_seed := fun _ => tt;
  np_normal := fun mu _ s => (mu, s);
  np_poisson := fun _ s => (0%N, s);
  np_exponential := fun _ s => (0%Q, s);
  np_uniform := fun lo _ s => (lo, s);
  np_choice_index := fun _ _ s => (0%nat, s);
  np_sin := fun _ => 0%Q;
  np_pi := 355 # 113
|}.

End Degenerate.

(* ------------------------------------------------------------------ *)
(** * The warehouse setup script

    [scripts/setup_snowflake.py].  The configuration is a mapping from
    keys to values, the warehouse a state [db] that a statement either
    changes or rejects with a message. *)

Module Setup.

(** [str(e)] *)
Definition exn_text (e : exn) : string :=
  match e with
  | KeyError key => ("'" ++ key ++ "'")%string
  | DatabaseError message => message
  end.

Definition road_segments_ddl : string :=
  "
            CREATE TABLE IF NOT EXISTS road_segments (
                segment_id VARCHAR(50) PRIMARY KEY,
                road_id VARCHAR(50),
                road_type VARCHAR(50),
                lanes INTEGER,
                latitude FLOAT,
                longitude FLOAT,
                traffic_volume INTEGER,
                segment_length_miles FLOAT
            )
        ".

Definition pavement_condition_ddl : string :=
  "
            CREATE TABLE IF NOT EXISTS pavement_condition (
                record_id VARCHAR(50) PRIMARY KEY,
                segment_id VARCHAR(50),
                date DATE,
                condition_score FLOAT,
                roughness_index FLOAT,
                cracking_percent FLOAT,
                pothole_count INTEGER,
                precipitation FLOAT,
                freeze_thaw_cycles INTEGER,
                temperature_avg FLOAT,
                FOREIGN KEY (segment_id) REFERENCES road_segments(segment_id)
            )
        ".

Definition maintenance_records_ddl : string :=
  "
            CREATE TABLE IF NOT EXISTS maintenance_records (
                maintenance_id VARCHAR(50) PRIMARY KEY,
                segment_id VARCHAR(50),
                date DATE,
                repair_type VARCHAR(50),
                cost FLOAT,
                effectiveness_score FLOAT,
                contractor VARCHAR(100),
                weather_delay_days INTEGER,
                FOREIGN KEY (segment_id) REFERENCES road_segments(segment_id)
            )
        ".

Definition pavement_analysis_ddl : string :=
  "
            CREATE OR REPLACE VIEW pavement_analysis AS
            SELECT 
                pc.segment_id,
                rs.road_type,
                rs.lanes,
                rs.traffic_volume,
                pc.date,
                pc.condition_score,
                pc.roughness_index,
                pc.cracking_percent,
                pc.pothole_count,
                COALESCE(mr.total_cost, 0) as total_maintenance_cost,
                COALESCE(mr.repair_count, 0) as repair_count
            FROM pavement_condition pc
            JOIN road_segments rs ON pc.segment_id = rs.segment_id
            LEFT JOIN (
                SELECT 
                    segment_id,
                    SUM(cost) as total_cost,
                    COUNT(*) as repair_count
                FROM maintenance_records
                GROUP BY segment_id
            ) mr ON pc.segment_id = mr.segment_id
        ".

Definition rule : string :=
  "==================================================".

Section Warehouse.

Variable db : Type.

(** What the warehouse does with a statement: the error it raises, or
    its next state. *)
Variable run : string -> db -> string + db.

Record world := mkworld {
  server : db;
  executed : list string;
  stdout : list string;
  cursor_open : bool
}.

(** A computation that may raise; the world it leaves is kept either way. *)
Definition M (A : Type) : Type := world -> outcome A * world.

Definition pure {A} (a : A) : M A := fun w => (Returned a, w).

Definition andthen {A B} (m : M A) (k : A -> M B) : M B :=
  fun w =>
    match m w with
    | (Returned a, w') => k a w'
    | (Raised e, w') => (Raised e, w')
    end.

Notation "x <~ m ;; k" := (andthen m (fun x => k))
  (at level 61, m at next level, right associativity).
Notation "m ;;; k" := (andthen m (fun _ => k))
  (at level 61, right associativity).

(** [config[key]] *)
Definition lookup (config : string -> option string) (key : string)
    : M string :=
  fun w =>
    match config key with
    | Some v => (Returned v, w)
    | None => (Raised (KeyError key), w)
    end.

(** [cursor.execute(sql)] *)
Definition execute (sql : string) : M unit :=
  fun w =>
    match run sql (server w) with
    | inr srv =>
        (Returned tt,
         mkworld srv (executed w ++ [sql]) (stdout w) (cursor_open w))
    | inl message => (Raised (DatabaseError message), w)
    end.

(** [print(line)] *)
Definition print (line : string) : M unit :=
  fun w =>
    (Returned tt,
     mkworld (server w) (executed w) (stdout w ++ [line]) (cursor_open w)).

(** [conn.cursor()] and [cursor.close()] *)
Definition open_cursor : M unit :=
  fun w => (Returned tt, mkworld (server w) (executed w) (stdout w) true).

Definition close_cursor : M unit :=
  fun w => (Returned tt, mkworld (server w) (executed w) (stdout w) false).

(** [try: body except Exception as e: handler(e); raise finally: final] *)
Definition try_reraise_finally {A} (body : M A) (handler : exn -> M unit)
    (final : M unit) : M A :=
  fun w =>
    match body w with
    | (Returned a, w1) => (Returned a, snd (final w1))
    | (Raised e, w1) => (Raised e, snd (final (snd (handler e w1))))
    end.

Section Config.

Variable config : string -> option string.

(** The body of the [try] block of [create_snowflake_objects]. *)
Definition create_body : M unit :=
  database <~ lookup config "database" ;;
  execute ("CREATE DATABASE IF NOT EXISTS " ++ database) ;;;
  database <~ lookup config "database" ;;
  print ("✅ Database " ++ database ++ " created/verified") ;;;
  database <~ lookup config "database" ;;
  execute ("USE DATABASE " ++ database) ;;;
  schema <~ lookup config "schema" ;;
  execute ("CREATE SCHEMA IF NOT EXISTS " ++ schema) ;;;
  schema <~ lookup config "schema" ;;
  print ("✅ Schema " ++ schema ++ " created/verified") ;;;
  schema <~ lookup config "schema" ;;
  execute ("USE SCHEMA " ++ schema) ;;;
  stage <~ lookup config "raw_data_stage" ;;
  execute ("CREATE STAGE IF NOT EXISTS " ++ stage) ;;;
  stage <~ lookup config "processed_data_stage" ;;
  execute ("CREATE STAGE IF NOT EXISTS " ++ stage) ;;;
  stage <~ lookup config "models_stage" ;;
  execute ("CREATE STAGE IF NOT EXISTS " ++ stage) ;;;
  print "✅ Data stages created/verified" ;;;
  execute road_segments_ddl ;;;
  execute pavement_condition_ddl ;;;
  execute maintenance_records_ddl ;;;
  print "✅ Data tables created/verified" ;;;
  execute pavement_analysis_ddl ;;;
  print "✅ Analysis views created/verified".

Definition create_snowflake_objects : M unit :=
  open_cursor ;;;
  try_reraise_finally create_body
    (fun e => print ("❌ Error creating Snowflake objects: " ++ exn_text e))
    close_cursor.

(** [main], after [load_config()] has returned [config]. *)
Definition main : M unit :=
  print "Setting up SmartPave Analytics in Snowflake..." ;;;
  print rule ;;;
  print "Configuration loaded:" ;;;
  database <~ lookup config "database" ;;
  print ("  Database: " ++ database) ;;;
  schema <~ lookup config "schema" ;;
  print ("  Schema: " ++ schema) ;;;
  size <~ lookup config "warehouse_size" ;;
  print ("  Warehouse: " ++ size) ;;;
  print "
To complete setup, run these SQL commands in Snowflake:" ;;;
  print rule ;;;
  database <~ lookup config "database" ;;
  print ("CREATE DATABASE IF NOT EXISTS " ++ database ++ ";") ;;;
  database <~ lookup config "database" ;;
  print ("USE DATABASE " ++ database ++ ";") ;;;
  schema <~ lookup config "schema" ;;
  print ("CREATE SCHEMA IF NOT EXISTS " ++ schema ++ ";") ;;;
  schema <~ lookup config "schema" ;;
  print ("USE SCHEMA " ++ schema ++ ";") ;;;
  stage <~ lookup config "raw_data_stage" ;;
  print ("CREATE STAGE IF NOT EXISTS " ++ stage ++ ";") ;;;
  stage <~ lookup config "processed_data_stage" ;;
  print ("CREATE STAGE IF NOT EXISTS " ++ stage ++ ";") ;;;
  stage <~ lookup config "models_stage" ;;
  print ("CREATE STAGE IF NOT EXISTS " ++ stage ++ ";") ;;;
  print "
✅ Setup script completed!" ;;;
  print "Next steps:" ;;;
  print "1. Run the SQL commands above in Snowflake" ;;;
  print "2. Upload data files to the stages" ;;;
  print "3. Run the notebooks to begin analysis".

End Config.

End Warehouse.

(** The statements of a complete setup, in the order they are sent. *)
Definition statements (database schema raw processed models : string)
    : list string :=
  [("CREATE DATABASE IF NOT EXISTS " ++ database)%string;
   ("USE DATABASE " ++ database)%string;
   ("CREATE SCHEMA IF NOT EXISTS " ++ schema)%string;
   ("USE SCHEMA " ++ schema)%string;
   ("CREATE STAGE IF NOT EXISTS " ++ raw)%string;
   ("CREATE STAGE IF NOT EXISTS " ++ processed)%string;
   ("CREATE STAGE IF NOT EXISTS " ++ models)%string;
   road_segments_ddl; pavement_condition_ddl; maintenance_records_ddl;
   pavement_analysis_ddl].

(** A configuration with the six keys of the script. *)
Definition configuration
    (database schema raw processed models size : string)
    (key : string) : option string :=
  if String.eqb key "database" then Some database
  else if String.eqb key "schema" then Some schema
  else if String.eqb key "raw_data_stage" then Some raw
  else if String.eqb key "processed_data_stage" then Some processed
  else if String.eqb key "models_stage" then Some models
  else if String.eqb key "warehouse_size" then Some size
  else None.

(** The configuration used in the examples. *)
Definition demo : string -> option string :=
  configuration "SMARTPAVE" "ANALYTICS" "RAW_STAGE" "PROCESSED_STAGE"
    "MODELS_STAGE" "MEDIUM".

(** The same without its [models_stage] entry. *)
Definition demo_without_models (key : string) : option string :=
  if String.eqb key "models_stage" then None else demo key.

(** A fresh connection to a warehouse without state. *)
Definition fresh : world unit := mkworld unit tt [] [] false.

(** A warehouse that accepts everything, and one that rejects the
    statements that create a schema. *)
Definition accept_all (sql : string) (srv : unit) : string + unit := inr srv.

Definition reject_schema (sql : string) (srv : unit) : string + unit :=
  if String.prefix "CREATE SCHEMA" sql then inl "insufficient privileges"%string
  else inr srv.

End Setup.

(** [a] is dated no later than [b]. *)
Definition not_after (a b : condition_row) : Prop :=
  toordinal (c_date a) <= toordinal (c_date b).

(** An observation with the given score, pothole count, cracking and date;
    the other columns are those of a four-lane arterial segment. *)
Definition observation (score : Q) (potholes : Z) (cracking : Q)
    (date : datetime) : condition_row :=
  mkcond "R001" "R001_S001" date 4 score 130 cracking potholes
    (3 # 10) 0 50 20000 Arterial (398283 # 10000) (- (985795 # 10000)).

(** The constant-score scenario: score 70, no pothole, 9 percent cracking,
    observed once a quarter. *)
Definition steady_observation (date : datetime) : condition_row :=
  observation 70 0 9 date.

Definition steady_segment : list condition_row :=
  map steady_observation report_dates.


(* ------------------------------------------------------------------ *)
(** * Facts about the Python built-ins *)

Lemma Qltb_lt (a b : Q) : (a <? b)%Q = true <-> (a < b)%Q.
Proof.
  unfold Py.Qltb. rewrite Qlt_alt.
  destruct (a ?= b)%Q; split; intro H; congruence.
Qed.

Lemma Qltb_ge (a b : Q) : (a <? b)%Q = false <-> (b <= a)%Q.
Proof.
  split; intro H.
  - apply Qnot_lt_le. intro L. apply Qltb_lt in L. congruence.
  - destruct (a <? b)%Q eqn:E; [|reflexivity].
    apply Qltb_lt in E. exfalso. exact (Qlt_not_le _ _ E H).
Qed.

Lemma Qgtb_gt (a b : Q) : (a >? b)%Q = true <-> (b < a)%Q.
Proof. unfold Py.Qgtb. apply Qltb_lt. Qed.

Lemma Qgtb_le (a b : Q) : (a >? b)%Q = false <-> (a <= b)%Q.
Proof. unfold Py.Qgtb. apply Qltb_ge. Qed.

#[global] Instance Qltb_comp : Proper (Qeq ==> Qeq ==> eq) Py.Qltb.
Proof.
  intros a a' Ha b b' Hb. unfold Py.Qltb. now rewrite Ha, Hb.
Qed.

#[global] Instance Qgtb_comp : Proper (Qeq ==> Qeq ==> eq) Py.Qgtb.
Proof.
  intros a a' Ha b b' Hb. unfold Py.Qgtb. now rewrite Ha, Hb.
Qed.

Lemma max_lower (a b : Q) : (a <= Py.max a b)%Q.
Proof.
  unfold Py.max. destruct (b >? a)%Q eqn:E.
  - apply Qgtb_gt in E. now apply Qlt_le_weak.
  - apply Qle_refl.
Qed.

Lemma max_upper (a b c : Q) : (a <= c -> b <= c -> Py.max a b <= c)%Q.
Proof. intros Ha Hb. unfold Py.max. now destruct (b >? a)%Q. Qed.

Lemma min_upper (a b : Q) : (Py.min a b <= a)%Q.
Proof.
  unfold Py.min. destruct (b <? a)%Q eqn:E.
  - apply Qltb_lt in E. now apply Qlt_le_weak.
  - apply Qle_refl.
Qed.

Lemma min_lower (a b c : Q) : (c <= a -> c <= b -> c <= Py.min a b)%Q.
Proof. intros Ha Hb. unfold Py.min. now destruct (b <? a)%Q. Qed.

Lemma maxZ_lower (a b : Z) : a <= Py.maxZ a b.
Proof. unfold Py.maxZ. destruct (Z.gtb_spec b a); lia. Qed.

Lemma int_nonneg (x : Q) : (0 <= x)%Q -> 0 <= Py.int x.
Proof.
  intro H. unfold Py.int.
  pose proof (proj2 (Qle_bool_iff 0 x) H) as B. rewrite B.
  rewrite <- (Qfloor_Z 0). now apply Qfloor_resp_le.
Qed.

Lemma round_half_even_floor (x : Q) :
  Py.round_half_even x = Qfloor x \/ Py.round_half_even x = Qfloor x + 1.
Proof.
  unfold Py.round_half_even.
  destruct (_ <? _)%Q; [now left|].
  destruct (_ >? _)%Q; [now right|].
  destruct (Z.even _); [now left | now right].
Qed.

Lemma round_half_even_ge (n : Z) (x : Q) :
  (inject_Z n <= x)%Q -> n <= Py.round_half_even x.
Proof.
  intro H. apply Qfloor_resp_le in H. rewrite Qfloor_Z in H.
  destruct (round_half_even_floor x) as [-> | ->]; lia.
Qed.

Lemma round_half_even_le (n : Z) (x : Q) :
  (x <= inject_Z n)%Q -> Py.round_half_even x <= n.
Proof.
  intro H. pose proof (Qfloor_resp_le _ _ H) as F. rewrite Qfloor_Z in F.
  destruct (Z.eq_dec (Qfloor x) n) as [E | NE].
  - unfold Py.round_half_even.
    assert (L : (x - inject_Z (Qfloor x) <? 1 # 2)%Q = true).
    { apply Qltb_lt. rewrite E. lra. }
    rewrite L. lia.
  - destruct (round_half_even_floor x) as [-> | ->]; lia.
Qed.

Lemma scale_pos (d : N) : (0 < inject_Z (10 ^ Z.of_N d))%Q.
Proof.
  rewrite <- (Zlt_Qlt 0). apply Z.pow_pos_nonneg; lia.
Qed.

Lemma round_ge (n : Z) (x : Q) (d : N) :
  (inject_Z n <= x)%Q -> (inject_Z n <= Py.round x d)%Q.
Proof.
  intro H. unfold Py.round. pose proof (scale_pos d) as P.
  apply Qle_shift_div_l; [exact P|].
  rewrite <- inject_Z_mult, <- Zle_Qle.
  apply round_half_even_ge. rewrite inject_Z_mult.
  apply Qmult_le_compat_r; [exact H | now apply Qlt_le_weak].
Qed.

Lemma round_le (n : Z) (x : Q) (d : N) :
  (x <= inject_Z n)%Q -> (Py.round x d <= inject_Z n)%Q.
Proof.
  intro H. unfold Py.round. pose proof (scale_pos d) as P.
  apply Qle_shift_div_r; [exact P|].
  rewrite <- inject_Z_mult, <- Zle_Qle.
  apply round_half_even_le. rewrite inject_Z_mult.
  apply Qmult_le_compat_r; [exact H | now apply Qlt_le_weak].
Qed.

(** ** Zero-padded numerals *)

Lemma parse_zeros (k : nat) (s : string) :
  Py.parse_d (Py.zeros k ++ s) = Py.parse_d s.
Proof.
  induction k as [|k IH]; [reflexivity|].
  unfold Py.parse_d in *. simpl.
  destruct (NilEmpty.uint_of_string (Py.zeros k ++ s)) as [d|];
    destruct (NilEmpty.uint_of_string s) as [d'|];
    simpl in *; congruence.
Qed.

(** Formatting loses nothing: the number is read back from its numeral. *)
Lemma parse_format (width : nat) (n : N) :
  Py.parse_d (Py.format_d width n) = Some n.
Proof.
  unfold Py.format_d. rewrite parse_zeros.
  unfold Py.parse_d, Py.digits. rewrite NilEmpty.usu. simpl.
  f_equal. apply DecimalN.Unsigned.of_to.
Qed.

Lemma format_d_inj (width : nat) (a b : N) :
  Py.format_d width a = Py.format_d width b -> a = b.
Proof.
  intro H. apply (f_equal Py.parse_d) in H.
  rewrite !parse_format in H. congruence.
Qed.

Lemma string_length_app (a b : string) :
  String.length (a ++ b) = (String.length a + String.length b)%nat.
Proof. induction a; simpl; congruence. Qed.

Lemma zeros_length (k : nat) : String.length (Py.zeros k) = k.
Proof. induction k; simpl; congruence. Qed.

(** The numeral is at least [width] characters long. *)
Lemma format_d_length (width : nat) (n : N) :
  (width <= String.length (Py.format_d width n))%nat.
Proof.
  unfold Py.format_d. rewrite string_length_app, zeros_length. lia.
Qed.

Lemma maintenance_number_name (n : N) :
  maintenance_number (maintenance_name n) = Some n.
Proof. unfold maintenance_name. simpl. apply parse_format. Qed.

(** ** Ranges *)

Lemma rangeN_snoc (lo hi : N) :
  (lo <= hi)%N -> rangeN lo (hi + 1) = rangeN lo hi ++ [hi].
Proof.
  intro H. unfold rangeN.
  replace (N.to_nat (hi + 1 - lo)) with (S (N.to_nat (hi - lo))) by lia.
  rewrite seq_S, map_app. simpl. do 2 f_equal. lia.
Qed.

Lemma rangeN_length (lo hi : N) :
  List.length (rangeN lo hi) = N.to_nat (hi - lo).
Proof. unfold rangeN. now rewrite length_map, length_seq. Qed.

Lemma rangeN_In (lo hi k : N) : In k (rangeN lo hi) <-> (lo <= k < hi)%N.
Proof.
  unfold rangeN. rewrite in_map_iff. split.
  - intros [i [<- Hi]]. apply in_seq in Hi. lia.
  - intro H. exists (N.to_nat (k - lo)). split; [lia|].
    apply in_seq. lia.
Qed.

Lemma rangeN_increasing (lo hi : N) : StronglySorted N.lt (rangeN lo hi).
Proof.
  unfold rangeN. generalize (N.to_nat (hi - lo)) as n. generalize 0%nat as a.
  intros a n. revert a. induction n as [|n IH]; intro a; simpl.
  - constructor.
  - constructor; [apply IH|].
    apply Forall_forall. intros x Hx.
    apply in_map_iff in Hx as [i [<- Hi]]. apply in_seq in Hi. lia.
Qed.

Lemma rangeN_NoDup (lo hi : N) : NoDup (rangeN lo hi).
Proof.
  unfold rangeN. apply Injective_map_NoDup; [|apply seq_NoDup].
  intros i j H. lia.
Qed.

Lemma range_In (lo hi k : Z) : In k (range lo hi) <-> lo <= k < hi.
Proof.
  unfold range. rewrite in_map_iff. split.
  - intros [i [<- Hi]]. apply in_seq in Hi. lia.
  - intro H. exists (Z.to_nat (k - lo)). split; [lia|].
    apply in_seq. lia.
Qed.

(** ** Identifier prefixes *)



(** The 200 road names are four characters long. *)
Lemma road_name_length (road_id : N) :
  In road_id (rangeN 1 (n_roads + 1)) ->
  String.length (road_name road_id) = 4%nat.
Proof.
  intro H.
  assert (E : forallb (fun j => Nat.eqb (String.length (road_name j)) 4)
                (rangeN 1 (n_roads + 1)) = true) by (vm_compute; reflexivity).
  rewrite forallb_forall in E. apply Nat.eqb_eq. now apply E.
Qed.

(** ** Cost *)

Lemma base_cost_nonneg (row : condition_row) :
  0 <= snd (fst (repair_plan row)).
Proof.
  unfold repair_plan.
  destruct (_ <? _)%Q; [simpl; lia|].
  destruct (_ >? _); [simpl; lia|].
  destruct (_ >? _)%Q; simpl; lia.
Qed.

Lemma total_cost_nonneg (base_cost : Z) (row : condition_row) :
  0 <= base_cost -> 0 <= c_lanes row -> 0 <= c_traffic_volume row ->
  0 <= total_cost base_cost row.
Proof.
  intros Hb Hl Ht. unfold total_cost. apply int_nonneg.
  apply Qmult_le_0_compat.
  - now rewrite <- (Zle_Qle 0).
  - assert (L : (0 <= inject_Z (c_lanes row))%Q) by now rewrite <- (Zle_Qle 0).
    assert (T : (0 <= inject_Z (c_traffic_volume row) / 100000)%Q).
    { apply Qle_shift_div_l; [reflexivity|]. rewrite Qmult_0_l.
      now rewrite <- (Zle_Qle 0). }
    lra.
Qed.

(* ------------------------------------------------------------------ *)
(** * Loops in the generator monad *)

Section Loops.

Context {rng : Type}.

Lemma bind_run {A B} (m : Gen rng A) (k : A -> Gen rng B) (s : rng) :
  bind m k s = k (fst (m s)) (snd (m s)).
Proof. unfold bind. now destruct (m s). Qed.

Lemma for_each_cons {A B} (x : A) (xs : list A) (body : A -> Gen rng B) s :
  fst (for_each (x :: xs) body s)
  = fst (body x s) :: fst (for_each xs body (snd (body x s))).
Proof. simpl. now rewrite !bind_run. Qed.

(** Every item a loop appends has the property its body establishes. *)
Lemma for_each_Forall {A B} (P : B -> Prop) (xs : list A)
    (body : A -> Gen rng B) :
  (forall x s, In x xs -> P (fst (body x s))) ->
  forall s, Forall P (fst (for_each xs body s)).
Proof.
  induction xs as [|x xs IH]; intros Hb s.
  - constructor.
  - rewrite for_each_cons. constructor.
    + apply Hb. now left.
    + apply IH. intros y s' Hy. apply Hb. now right.
Qed.

(** A column the body fills without looking at the generator. *)
Lemma for_each_map {A B C} (f : B -> C) (g : A -> C) (xs : list A)
    (body : A -> Gen rng B) :
  (forall x s, f (fst (body x s)) = g x) ->
  forall s, map f (fst (for_each xs body s)) = map g xs.
Proof.
  intros Hb. induction xs as [|x xs IH]; intro s.
  - reflexivity.
  - rewrite for_each_cons. simpl. now rewrite Hb, IH.
Qed.

Lemma for_each_length {A B} (xs : list A) (body : A -> Gen rng B) s :
  List.length (fst (for_each xs body s)) = List.length xs.
Proof.
  revert s. induction xs as [|x xs IH]; intro s.
  - reflexivity.
  - rewrite for_each_cons. simpl. now rewrite IH.
Qed.

(** An invariant of the loop-carried variables. *)
Lemma for_fold_invariant {A S} (I : S -> Prop) (xs : list A)
    (body : S -> A -> Gen rng S) :
  (forall st x s, In x xs -> I st -> I (fst (body st x s))) ->
  forall st s, I st -> I (fst (for_fold xs body st s)).
Proof.
  induction xs as [|x xs IH]; intros Hb st s Hst.
  - exact Hst.
  - simpl. rewrite bind_run. apply IH.
    + intros st' y s' Hy. apply Hb. now right.
    + apply Hb; [now left | exact Hst].
Qed.

End Loops.

Lemma Forall_concat_intro {A} (P : A -> Prop) (ls : list (list A)) :
  Forall (Forall P) ls -> Forall P (List.concat ls).
Proof.
  induction 1 as [|l ls Hl _ IH]; simpl.
  - constructor.
  - apply Forall_app. now split.
Qed.

(* ------------------------------------------------------------------ *)
(** * The maintenance pass *)

Section Maintenance.

Context {rng : Type} {NP : Numpy rng}.

(** A triggered observation appends one record and restarts the running
    state from the repaired condition. *)
Lemma maintenance_step_repair (st : scan) (row : condition_row) (s : rng) :
  needs_repair (last_repair_date st) (last_condition st) row = true ->
  exists m,
    recorded_from (maintenance_id st) row m
    /\ fst (maintenance_step st row s)
       = mkscan (maintenance_records st ++ [m]) (maintenance_id st + 1)
           (Some (c_date row))
           (Py.min 100 (c_condition_score row + 20)%Q).
Proof.
  intro H. unfold maintenance_step. rewrite H.
  unfold recorded_from, repair_category.
  destruct (repair_plan row) as [[kind base_cost] effectiveness].
  rewrite !bind_run. simpl.
  eexists. split; [|reflexivity]. simpl. repeat split.
Qed.

(** An observation that triggers nothing only refreshes the last known
    condition, and draws no random number. *)
Lemma maintenance_step_skip (st : scan) (row : condition_row) (s : rng) :
  needs_repair (last_repair_date st) (last_condition st) row = false ->
  maintenance_step st row s
  = (mkscan (maintenance_records st) (maintenance_id st)
       (last_repair_date st) (c_condition_score row), s).
Proof. intro H. unfold maintenance_step. now rewrite H. Qed.

(** The trigger, read as the four conditions of the rule. *)
Lemma needs_repair_iff (last_repair : option datetime) (last_cond : Q)
    (row : condition_row) :
  needs_repair last_repair last_cond row = true
  <-> ((c_condition_score row < 60)%Q
       \/ c_pothole_count row > 5
       \/ (last_cond - c_condition_score row > 15)%Q
       \/ exists d, last_repair = Some d /\ days_between (c_date row) d > 365).
Proof.
  unfold needs_repair.
  rewrite !orb_true_iff, Qltb_lt, Qgtb_gt, Z.gtb_gt.
  split.
  - intros [[[H | H] | H] | H]; auto.
    destruct last_repair as [d|]; [|discriminate].
    apply Z.gtb_gt in H. right. right. right. now exists d.
  - intros [H | [H | [H | [d [-> H]]]]]; auto.
    right. now apply Z.gtb_gt.
Qed.

Lemma insert_by_date_In (r x : condition_row) (rows : list condition_row) :
  In x (insert_by_date r rows) <-> x = r \/ In x rows.
Proof.
  induction rows as [|r' rows IH]; simpl.
  - intuition.
  - destruct (_ <=? _); simpl; rewrite ?IH; intuition.
Qed.

Lemma sort_by_date_In (x : condition_row) (rows : list condition_row) :
  In x (sort_by_date rows) <-> In x rows.
Proof.
  induction rows as [|r rows IH]; simpl.
  - reflexivity.
  - rewrite insert_by_date_In, IH. intuition.
Qed.

Lemma insert_by_date_perm (r : condition_row) (rows : list condition_row) :
  Permutation (insert_by_date r rows) (r :: rows).
Proof.
  induction rows as [|r' rows IH]; simpl.
  - reflexivity.
  - destruct (_ <=? _); [|reflexivity].
    rewrite IH. apply perm_swap.
Qed.

(** Sorting keeps the rows, each as often as before. *)
Lemma sort_by_date_perm (rows : list condition_row) :
  Permutation (sort_by_date rows) rows.
Proof.
  induction rows as [|r rows IH]; simpl.
  - reflexivity.
  - rewrite insert_by_date_perm. now constructor.
Qed.

Lemma seen_spec (x : string) (seen : list string) :
  existsb (String.eqb x) seen = true <-> In x seen.
Proof.
  rewrite existsb_exists. split.
  - intros [y [Hy E]]. apply String.eqb_eq in E. now subst.
  - intro H. exists x. split; [exact H | apply String.eqb_refl].
Qed.

Lemma unique_from_In (seen xs : list string) (x : string) :
  In x (unique_from seen xs) <-> In x xs /\ ~ In x seen.
Proof.
  revert seen. induction xs as [|y xs IH]; intro seen; simpl.
  - tauto.
  - destruct (existsb (String.eqb y) seen) eqn:E.
    + apply seen_spec in E. rewrite IH. split.
      * tauto.
      * intros [[-> | H] N]; tauto.
    + assert (N : ~ In y seen).
      { intro H. apply seen_spec in H. congruence. }
      simpl. rewrite IH. simpl.
      destruct (string_dec y x) as [-> | D]; tauto.
Qed.

Lemma unique_from_NoDup (seen xs : list string) :
  NoDup (unique_from seen xs).
Proof.
  revert seen. induction xs as [|y xs IH]; intro seen; simpl.
  - constructor.
  - destruct (existsb (String.eqb y) seen); [apply IH|].
    constructor; [|apply IH].
    rewrite unique_from_In. simpl. tauto.
Qed.

(** Every segment of the table is visited, once. *)
Lemma unique_spec (xs : list string) :
  NoDup (unique xs) /\ forall x, In x (unique xs) <-> In x xs.
Proof.
  split; [apply unique_from_NoDup|].
  intro x. unfold unique. rewrite unique_from_In. simpl. tauto.
Qed.

Lemma insert_by_date_sorted (r : condition_row) (rows : list condition_row) :
  StronglySorted not_after rows ->
  StronglySorted not_after (insert_by_date r rows).
Proof.
  induction 1 as [|r' rows Hs IH Hall]; simpl.
  - repeat constructor.
  - destruct (Z.leb_spec (toordinal (c_date r')) (toordinal (c_date r))).
    + constructor; [exact IH|].
      apply Forall_forall. intros x Hx.
      apply insert_by_date_In in Hx as [-> | Hx]; [exact H|].
      now apply (proj1 (Forall_forall _ _) Hall).
    + constructor; [now constructor|].
      constructor; [unfold not_after; lia|].
      eapply Forall_impl; [|exact Hall].
      unfold not_after. intros; lia.
Qed.

Lemma sort_by_date_sorted (rows : list condition_row) :
  StronglySorted not_after (sort_by_date rows).
Proof.
  induction rows; simpl.
  - constructor.
  - now apply insert_by_date_sorted.
Qed.






(** C7. After an observation that triggers a repair the last known
    condition is [min(100, score + 20)] and the last repair date is the
    observation's date; after one that does not, the last known condition
    is the observed score and the last repair date is unchanged. *)
Theorem running_state_update (st : scan) (row : condition_row) (s : rng) :
  let triggered := needs_repair (last_repair_date st) (last_condition st) row in
  let st' := fst (maintenance_step st row s) in
  last_condition st'
  = (if triggered then Py.min 100 (c_condition_score row + 20)%Q
     else c_condition_score row)
  /\ last_repair_date st'
     = (if triggered then Some (c_date row) else last_repair_date st)
  /\ (triggered = true <->
      List.length (maintenance_records st')
      = S (List.length (maintenance_records st))).
Proof.
  cbv zeta. destruct (needs_repair _ _ row) eqn:E.
  - destruct (maintenance_step_repair st row s E) as [m [_ ->]]. simpl.
    rewrite length_app. simpl. repeat split; intros; lia.
  - rewrite (maintenance_step_skip st row s E). simpl.
    repeat split; intros; try discriminate; lia.
Qed.

(** The category chain, read case by case. *)
Lemma repair_category_cases (row : condition_row) :
  ((c_condition_score row < 40)%Q -> repair_category row = resurfacing)
  /\ ((40 <= c_condition_score row)%Q -> c_pothole_count row > 3 ->
      repair_category row = pothole_patch)
  /\ ((40 <= c_condition_score row)%Q -> c_pothole_count row <= 3 ->
      (c_cracking_percent row > 20)%Q ->
      repair_category row = crack_sealing)
  /\ ((40 <= c_condition_score row)%Q -> c_pothole_count row <= 3 ->
      (c_cracking_percent row <= 20)%Q ->
      repair_category row = preventive_maintenance).
Proof.
  unfold repair_category, repair_plan.
  repeat split.
  - intro H. apply Qltb_lt in H. now rewrite H.
  - intros H P. apply Qltb_ge in H. apply Z.gtb_gt in P. now rewrite H, P.
  - intros H P C. apply Qltb_ge in H. apply Qgtb_gt in C.
    destruct (Z.gtb_spec (c_pothole_count row) 3); [lia|]. now rewrite H, C.
  - intros H P C. apply Qltb_ge in H. apply Qgtb_le in C.
    destruct (Z.gtb_spec (c_pothole_count row) 3); [lia|]. now rewrite H, C.
Qed.

(** C2. The record of a triggered repair carries the category of the
    priority chain: resurfacing below a score of 40, otherwise
    pothole_patch above 3 potholes, otherwise crack_sealing above 20
    percent cracking, otherwise preventive_maintenance.  An observation
    with score 30 is always repaired, and as resurfacing; after a last
    known condition of 100 its drop is above 15. *)
Theorem repair_category_chain (st : scan) (row : condition_row) (s : rng) :
  let st' := fst (maintenance_step st row s) in
  (needs_repair (last_repair_date st) (last_condition st) row = true ->
   exists m,
     maintenance_records st' = maintenance_records st ++ [m]
     /\ ((c_condition_score row < 40)%Q -> m_repair_type m = resurfacing)
     /\ ((40 <= c_condition_score row)%Q -> c_pothole_count row > 3 ->
         m_repair_type m = pothole_patch)
     /\ ((40 <= c_condition_score row)%Q -> c_pothole_count row <= 3 ->
         (c_cracking_percent row > 20)%Q ->
         m_repair_type m = crack_sealing)
     /\ ((40 <= c_condition_score row)%Q -> c_pothole_count row <= 3 ->
         (c_cracking_percent row <= 20)%Q ->
         m_repair_type m = preventive_maintenance))
  /\ ((c_condition_score row == 30)%Q ->
      (exists m,
          maintenance_records st' = maintenance_records st ++ [m]
          /\ m_repair_type m = resurfacing)
      /\ ((last_condition st == 100)%Q ->
          (last_condition st - c_condition_score row > 15)%Q)).
Proof.
  cbv zeta. split.
  - intro E.
    destruct (maintenance_step_repair st row s E) as [m [R ->]].
    destruct R as (_ & _ & _ & _ & K & _).
    exists m. simpl. split; [reflexivity|].
    rewrite K. apply repair_category_cases.
  - intro H30. split.
    + assert (E : needs_repair (last_repair_date st) (last_condition st) row
                  = true).
      { apply needs_repair_iff. left. rewrite H30. reflexivity. }
      destruct (maintenance_step_repair st row s E) as [m [R ->]].
      destruct R as (_ & _ & _ & _ & K & _).
      exists m. simpl. split; [reflexivity|].
      rewrite K. apply repair_category_cases. rewrite H30. reflexivity.
    + intro H100. rewrite H100, H30. reflexivity.
Qed.

(** On a segment that stays at 70 every observation is repaired: the last
    known condition is 100 at first and 90 after each repair, so the drop
    always exceeds 15. *)
Lemma steady_score_always_repaired (rows : list condition_row) :
  Forall (fun r => (c_condition_score r == 70)%Q) rows ->
  forall (st : scan) (s : rng),
    (last_condition st - 70 > 15)%Q ->
    List.length (maintenance_records (fst (for_fold rows maintenance_step st s)))
    = (List.length (maintenance_records st) + List.length rows)%nat.
Proof.
  induction 1 as [|row rows H70 _ IH]; intros st s Hst; simpl.
  - lia.
  - rewrite bind_run.
    assert (E : needs_repair (last_repair_date st) (last_condition st) row
                = true).
    { apply needs_repair_iff. right. right. left. now rewrite H70. }
    destruct (maintenance_step_repair st row s E) as [m [_ Hm]].
    rewrite IH; rewrite Hm; cbn [maintenance_records last_condition].
    + rewrite length_app. simpl. lia.
    + assert (L : (c_condition_score row + 20 <? 100)%Q = true).
      { apply Qltb_lt. rewrite H70. reflexivity. }
      unfold Py.min. rewrite L, H70. reflexivity.
Qed.

(** C3, as the code has it.  On a segment whose score is 70 at every
    observation, with no pothole and no earlier repair, the first
    observation is repaired: its drop from the initial last known
    condition 100 is 30, above 15.  Every observation more than 365 days
    after the last repair is repaired, and so is every other one: the
    replay of the segment appends one record per observation.  These
    repairs are preventive_maintenance ones where cracking is at most 20
    percent. *)
Theorem constant_70_repairs (rows : list condition_row) :
  Forall (fun r => (c_condition_score r == 70)%Q /\ c_pothole_count r = 0)
    rows ->
  (forall first rest, rows = first :: rest ->
     needs_repair None 100 first = true)
  /\ (forall row d last_cond,
        In row rows -> days_between (c_date row) d > 365 ->
        needs_repair (Some d) last_cond row = true)
  /\ (forall (records : list maintenance_row) (id : N) (s : rng),
        List.length
          (maintenance_records
             (fst (for_fold rows maintenance_step
                     (mkscan records id None 100) s)))
        = (List.length records + List.length rows)%nat)
  /\ (forall row,
        In row rows -> (c_cracking_percent row <= 20)%Q ->
        repair_category row = preventive_maintenance).
Proof.
  intro H. rewrite Forall_forall in H.
  split; [|split; [|split]].
  - intros first rest ->.
    destruct (H first (or_introl eq_refl)) as [H70 _].
    apply needs_repair_iff. right. right. left. rewrite H70. reflexivity.
  - intros row d last_cond _ Hd. apply needs_repair_iff.
    right. right. right. now exists d.
  - intros records id s.
    apply (steady_score_always_repaired rows); [|reflexivity].
    apply Forall_forall. intros r Hr. now apply H.
  - intros row Hin C. destruct (H row Hin) as [H70 H0].
    apply repair_category_cases; [| lia | exact C].
    rewrite H70. discriminate.
Qed.

End Maintenance.

(* ------------------------------------------------------------------ *)
(** * Maintenance identifiers *)

Section Identifiers.

Context {rng : Type} {NP : Numpy rng}.

Lemma numbered_step (st : scan) (row : condition_row) (s : rng) :
  numbered st -> numbered (fst (maintenance_step st row s)).
Proof.
  intros [Hid Hrec].
  destruct (needs_repair (last_repair_date st) (last_condition st) row) eqn:E.
  - destruct (maintenance_step_repair st row s E) as [m [R ->]].
    destruct R as [Hm _]. split; simpl; [lia|].
    rewrite map_app, Hrec, rangeN_snoc, map_app by exact Hid.
    simpl. now rewrite Hm.
  - rewrite (maintenance_step_skip st row s E). now split.
Qed.

(** The counter is not reset between segments. *)
Lemma numbered_segment (condition_df : list condition_row) (st : scan)
    (segment_id : string) (s : rng) :
  numbered st ->
  numbered (fst (maintenance_segment condition_df st segment_id s)).
Proof.
  intro H. unfold maintenance_segment.
  apply for_fold_invariant.
  - intros st' row s' _. apply numbered_step.
  - exact H.
Qed.

(** C6. The identifiers of the maintenance table come from one counter
    that runs through the whole pass: read back from the zero-padded
    identifiers, the numbers are 1, 2, ..., one per record in table order,
    hence strictly increasing, and no identifier occurs twice. *)
Theorem maintenance_ids_sequential
    (condition_df : list condition_row) (s : rng) :
  let ids :=
    map m_maintenance_id (fst (generate_maintenance_records condition_df s)) in
  let numbers := rangeN 1 (1 + N.of_nat (List.length ids)) in
  ids = map maintenance_name numbers
  /\ map maintenance_number ids = map Some numbers
  /\ StronglySorted N.lt numbers
  /\ NoDup ids
  /\ Forall (fun id => (7 <= String.length id)%nat) ids.
Proof.
  cbv zeta. unfold generate_maintenance_records. rewrite bind_run.
  unfold ret. cbn [fst].
  set (final := fst (for_fold _ _ _ s)).
  assert (H : numbered final).
  { apply for_fold_invariant.
    - intros st seg s' _. apply numbered_segment.
    - split; simpl; [lia | reflexivity]. }
  destruct H as [Hid Hrec].
  assert (Hn : (1 + N.of_nat (List.length
                  (map m_maintenance_id (maintenance_records final))))%N
               = maintenance_id final).
  { rewrite Hrec, length_map, rangeN_length. lia. }
  rewrite Hn.
  assert (Hread : map maintenance_number
                    (map m_maintenance_id (maintenance_records final))
                  = map Some (rangeN 1 (maintenance_id final))).
  { rewrite Hrec, map_map. apply map_ext. apply maintenance_number_name. }
  split; [exact Hrec|].
  split; [exact Hread|].
  split; [apply rangeN_increasing|].
  split.
  - apply (NoDup_map_inv maintenance_number). rewrite Hread.
    apply Injective_map_NoDup; [|apply rangeN_NoDup].
    intros a b H. congruence.
  - rewrite Hrec. apply Forall_forall. intros id Hin.
    apply in_map_iff in Hin as [n [<- _]].
    unfold maintenance_name. simpl.
    pose proof (format_d_length 6 n). lia.
Qed.

End Identifiers.

(* ------------------------------------------------------------------ *)
(** * The network and condition tables *)

Section Tables.

Context {rng : Type} {NP : Numpy rng}.

Lemma np_choice_In {A} (first : A) (others : list A) (p : list Q) (s : rng) :
  In (fst (np_choice first others p s)) (first :: others).
Proof.
  unfold np_choice. rewrite bind_run. unfold ret. cbn [fst].
  destruct (nth_in_or_default (fst (np_choice_index (S (List.length others)) p s))
              (first :: others) first) as [H | ->].
  - exact H.
  - now left.
Qed.

Lemma network_segment_row (name : string) (seg_id : N) (s : rng) :
  let r := fst (network_segment name seg_id s) in
  rd_road_id r = name
  /\ rd_segment_id r = segment_name name seg_id
  /\ In (rd_lanes r) [2; 3; 4; 5; 6]
  /\ 1000 <= rd_traffic_volume r.
Proof.
  cbv zeta. unfold network_segment. rewrite !bind_run. unfold ret.
  cbn [fst rd_road_id rd_segment_id rd_lanes rd_traffic_volume].
  repeat split.
  - apply np_choice_In.
  - apply maxZ_lower.
Qed.

Lemma generate_road_network_ok (s : rng) :
  Forall network_row_ok (fst (generate_road_network s)).
Proof.
  unfold generate_road_network. rewrite bind_run. unfold ret. cbn [fst].
  apply Forall_concat_intro. apply for_each_Forall.
  intros road_id s1 Hroad. unfold network_road. rewrite bind_run.
  apply for_each_Forall. intros seg_id s2 _.
  destruct (network_segment_row (road_name road_id) seg_id s2)
    as (Hr & Hs & Hl & Ht).
  unfold network_row_ok. repeat split; try assumption.
  exists road_id, seg_id. rewrite Hr. auto.
Qed.

Lemma condition_record_row (date : datetime) (road : road_row) (s : rng) :
  let c := fst (condition_record date road s) in
  observes road c /\ metrics_in_range c /\ c_date c = date.
Proof.
  cbv zeta. unfold condition_record. rewrite !bind_run. unfold ret.
  unfold observes, metrics_in_range.
  cbn [fst c_road_id c_segment_id c_lanes c_traffic_volume c_road_type
       c_condition_score c_pothole_count c_freeze_thaw_cycles
       c_cracking_percent c_roughness_index c_date].
  repeat split.
  - apply (round_ge 0). apply max_lower.
  - apply (round_le 100). apply max_upper; [discriminate|]. apply min_upper.
  - apply maxZ_lower.
  - destruct (in_list (month date) [12; 1; 2]).
    + rewrite bind_run. unfold ret. cbn [fst]. lia.
    + unfold ret. cbn [fst]. lia.
  - apply (round_ge 0). apply max_lower.
  - apply (round_ge 50). apply max_lower.
Qed.

Lemma generate_pavement_condition_data_ok (roads_df : list road_row) (s : rng) :
  Forall (fun c => metrics_in_range c
                   /\ exists road, In road roads_df /\ observes road c)
    (fst (generate_pavement_condition_data roads_df s)).
Proof.
  unfold generate_pavement_condition_data. rewrite bind_run. unfold ret.
  cbn [fst]. apply Forall_concat_intro. apply for_each_Forall.
  intros date s1 _. apply for_each_Forall. intros road s2 Hroad.
  destruct (condition_record_row date road s2) as (Ho & Hm & _).
  split; [exact Hm|]. now exists road.
Qed.

(** Every maintenance record was created at a row of the condition table. *)
Lemma generate_maintenance_records_source
    (condition_df : list condition_row) (s : rng) :
  Forall (fun m => exists row id, In row condition_df /\ recorded_from id row m)
    (fst (generate_maintenance_records condition_df s)).
Proof.
  unfold generate_maintenance_records. rewrite bind_run. unfold ret.
  cbn [fst].
  apply (for_fold_invariant
           (fun st => Forall (fun m => exists row id,
                                  In row condition_df /\ recorded_from id row m)
                        (maintenance_records st))).
  - intros st seg s1 _ Hst. unfold maintenance_segment.
    apply for_fold_invariant; [|exact Hst].
    intros st' row s2 Hrow Hst'.
    rewrite sort_by_date_In in Hrow. apply filter_In in Hrow as [Hrow _].
    destruct (needs_repair (last_repair_date st') (last_condition st') row)
      eqn:E.
    + destruct (maintenance_step_repair st' row s2 E) as [m [R ->]].
      cbn [maintenance_records]. apply Forall_app. split; [exact Hst'|].
      constructor; [|constructor]. now exists row, (maintenance_id st').
    + now rewrite (maintenance_step_skip st' row s2 E).
  - constructor.
Qed.

(** The four stages of [main], each fed the tables of the earlier ones. *)
Lemma main_stages (s : rng) :
  let d := fst (main s) in
  exists s1 s2 s3,
    road_network d = fst (generate_road_network s)
    /\ pavement_condition d
       = fst (generate_pavement_condition_data (road_network d) s1)
    /\ maintenance d
       = fst (generate_maintenance_records (pavement_condition d) s2)
    /\ traffic_volume d = fst (generate_traffic_data (road_network d) s3).
Proof.
  cbv zeta. unfold main. rewrite !bind_run. unfold ret.
  cbn [fst road_network pavement_condition maintenance traffic_volume].
  eauto 10.
Qed.

(** C4. In the generated tables every condition score lies in [0, 100],
    every pothole count, freeze-thaw count and cracking percentage is at
    least 0, and every maintenance cost is at least 0. *)
Theorem generated_values_in_range (s : rng) :
  let d := fst (main s) in
  Forall (fun c => (0 <= c_condition_score c <= 100)%Q
                   /\ 0 <= c_pothole_count c
                   /\ 0 <= c_freeze_thaw_cycles c
                   /\ (0 <= c_cracking_percent c)%Q)
    (pavement_condition d)
  /\ Forall (fun m => 0 <= m_cost m) (maintenance d).
Proof.
  cbv zeta. destruct (main_stages s) as (s1 & s2 & s3 & Hn & Hc & Hm & _).
  pose proof (generate_road_network_ok s) as Net. rewrite <- Hn in Net.
  pose proof (generate_pavement_condition_data_ok
                (road_network (fst (main s))) s1) as Cond.
  rewrite <- Hc in Cond.
  pose proof (generate_maintenance_records_source
                (pavement_condition (fst (main s))) s2) as Src.
  rewrite <- Hm in Src.
  rewrite Forall_forall in Net, Cond, Src.
  split; apply Forall_forall.
  - intros c Hin. destruct (Cond c Hin) as [(S & P & F & C & _) _]. auto.
  - intros m Hin.
    destruct (Src m Hin) as (row & id & Hrow & R).
    destruct R as (_ & _ & _ & _ & _ & -> & _).
    destruct (Cond row Hrow) as [_ (road & Hroad & O)].
    destruct O as (_ & _ & Hl & Ht & _).
    destruct (Net road Hroad) as (_ & Lanes & Vol).
    apply total_cost_nonneg.
    + apply base_cost_nonneg.
    + rewrite Hl. simpl in Lanes. intuition lia.
    + rewrite Ht. lia.
Qed.

(** C10. Every generated roughness index is at least 50 and every
    generated traffic baseline is at least 1000. *)
Theorem generated_floors (s : rng) :
  let d := fst (main s) in
  Forall (fun c => (50 <= c_roughness_index c)%Q) (pavement_condition d)
  /\ Forall (fun r => 1000 <= rd_traffic_volume r) (road_network d).
Proof.
  cbv zeta. destruct (main_stages s) as (s1 & _ & _ & Hn & Hc & _).
  rewrite Hc, Hn. split.
  - eapply Forall_impl; [|apply generate_pavement_condition_data_ok].
    intros c [M _]. apply M.
  - eapply Forall_impl; [|apply generate_road_network_ok].
    intros r (_ & _ & H). exact H.
Qed.


End Tables.

(* ------------------------------------------------------------------ *)
(** * Traffic and the whole run *)

Section Traffic.

Context {rng : Type} {NP : Numpy rng}.

Lemma traffic_record_row (road : road_row) (year month : Z) (s : rng) :
  let t := fst (traffic_record road year month s) in
  traffic_key t = (rd_road_id road, rd_segment_id road, year, month)
  /\ t_avg_daily_traffic t
     = Py.int (inject_Z (rd_traffic_volume road)
               * traffic_seasonal_factor month * growth_factor year
               * fst (np_normal 1 (1 # 10) s))%Q.
Proof.
  cbv zeta. unfold traffic_record. rewrite !bind_run. unfold ret.
  split; reflexivity.
Qed.

Lemma traffic_road_keys (road : road_row) (s : rng) :
  map traffic_key (fst (traffic_road road s))
  = flat_map
      (fun year =>
         map (fun month => (rd_road_id road, rd_segment_id road, year, month))
           (range 1 13))
      (range 2020 2025).
Proof.
  unfold traffic_road. rewrite bind_run. unfold ret. cbn [fst].
  rewrite concat_map, flat_map_concat_map. f_equal.
  apply for_each_map. intros year s1.
  apply for_each_map. intros month s2.
  apply traffic_record_row.
Qed.

(** C8. The traffic table has one row per segment, year of 2020..2024
    and month of 1..12, in that order: its key columns are a function of
    the network table alone.  The average daily traffic of a row is the
    truncated product of the segment's traffic baseline, a seasonal
    factor (1.1 in June to August, 0.9 in December to February, 1
    otherwise), a growth factor [1 + 0.02 * (year - 2020)] and a draw of
    [normal(1, 0.1)].  The generator reads no table but the network
    table; its draws come from the generator shared with the other
    stages, so that in a run of [main] the table is that of the network
    table and of the generator state the maintenance pass over the
    condition table leaves behind. *)
Theorem traffic_from_network_and_generator
    (roads_df : list road_row) (s : rng) :
  let table := fst (generate_traffic_data roads_df s) in
  map traffic_key table = traffic_keys roads_df
  /\ Forall (fun t =>
               exists road seasonal growth noise s',
                 In road roads_df
                 /\ t_road_id t = rd_road_id road
                 /\ t_segment_id t = rd_segment_id road
                 /\ 2020 <= t_year t < 2025
                 /\ 1 <= t_month t < 13
                 /\ (In (t_month t) [6; 7; 8] -> seasonal = 11 # 10)
                 /\ (In (t_month t) [12; 1; 2] -> seasonal = 9 # 10)
                 /\ (In (t_month t) [3; 4; 5; 9; 10; 11] -> seasonal = 1%Q)
                 /\ growth = (1 + inject_Z (t_year t - 2020) * (2 # 100))%Q
                 /\ noise = fst (np_normal 1 (1 # 10) s')
                 /\ t_avg_daily_traffic t
                    = Py.int (inject_Z (rd_traffic_volume road)
                              * seasonal * growth * noise)%Q)
       table
  /\ (forall s0,
        let roads := fst (generate_road_network s0) in
        let s1 := snd (generate_road_network s0) in
        let condition_df := fst (generate_pavement_condition_data roads s1) in
        let s2 := snd (generate_pavement_condition_data roads s1) in
        let s3 := snd (generate_maintenance_records condition_df s2) in
        road_network (fst (main s0)) = roads
        /\ pavement_condition (fst (main s0)) = condition_df
        /\ traffic_volume (fst (main s0))
           = fst (generate_traffic_data roads s3)).
Proof.
  cbv zeta. split; [|split].
  - unfold generate_traffic_data. rewrite bind_run. unfold ret. cbn [fst].
    unfold traffic_keys. rewrite concat_map, flat_map_concat_map. f_equal.
    apply for_each_map. intros road s1. apply traffic_road_keys.
  - unfold generate_traffic_data. rewrite bind_run. unfold ret. cbn [fst].
    apply Forall_concat_intro. apply for_each_Forall.
    intros road s1 Hroad. unfold traffic_road. rewrite bind_run.
    unfold ret. cbn [fst]. apply Forall_concat_intro.
    apply for_each_Forall. intros year s2 Hyear.
    apply for_each_Forall. intros month s3 Hmonth.
    destruct (traffic_record_row road year month s3) as [K V].
    injection K as Hr Hs Hy Hm.
    exists road, (traffic_seasonal_factor month), (growth_factor year),
      (fst (np_normal 1 (1 # 10) s3)), s3.
    rewrite Hr, Hs, Hy, Hm.
    apply range_In in Hyear. apply range_In in Hmonth.
    split; [assumption|]. split; [reflexivity|]. split; [reflexivity|].
    split; [lia|]. split; [lia|].
    split; [|split; [|split]].
    + simpl. intros [<- | [<- | [<- | []]]]; reflexivity.
    + simpl. intros [<- | [<- | [<- | []]]]; reflexivity.
    + simpl. intros [<- | [<- | [<- | [<- | [<- | [<- | []]]]]]]; reflexivity.
    + split; [reflexivity|]. split; [reflexivity | exact V].
  - intro s0. unfold main. rewrite !bind_run. unfold ret.
    cbn [fst snd road_network pavement_condition traffic_volume].
    repeat split.
Qed.

(** The module seeds the generator before anything is drawn, so the four
    tables of a run do not depend on the state the interpreter started
    the generator in: they are those of [main] from the state of seed
    42. *)
Lemma script_from_seed (ambient : rng) :
  run_script ambient = fst (main (np_seed 42)).
Proof.
  unfold run_script, script. rewrite !bind_run.
  unfold np_random_seed. cbn [fst snd]. reflexivity.
Qed.

End Traffic.

(* ------------------------------------------------------------------ *)
(** * Worked examples *)

(** A score of 30 after a last known condition of 100: one resurfacing
    record. *)
Lemma repair_category_chain_witness :
  exists m,
    maintenance_records
      (fst (maintenance_step (mkscan [] 1 None 100)
              (observation 30 1 5 (mkdate 2020 1 1)) 42%N))
    = [] ++ [m]
    /\ m_repair_type m = resurfacing.
Proof.
  apply (proj2 (repair_category_chain (mkscan [] 1 None 100)
                  (observation 30 1 5 (mkdate 2020 1 1)) 42%N)).
  reflexivity.
Defined.

(** The first observation of a steady segment is repaired: at score 70
    with no pothole and no earlier repair the drop from 100 is 30, and the
    pass records a preventive repair. *)
Lemma steady_first_observation_repaired :
  (c_condition_score (steady_observation start_date) == 70)%Q
  /\ c_pothole_count (steady_observation start_date) = 0
  /\ (100 - c_condition_score (steady_observation start_date) > 15)%Q
  /\ needs_repair None 100 (steady_observation start_date) <> false
  /\ map (fun m => (m_maintenance_id m, m_date m, m_repair_type m))
       (fst (generate_maintenance_records
               [steady_observation start_date] 42%N))
     = [("M000001"%string, start_date, preventive_maintenance)].
Proof.
  repeat split; try reflexivity. discriminate.
Qed.


(** How often that happens.  Take the scores with one decimal from 60.0
    to 85.0 and a last known condition exactly 15 above: the difference
    on doubles is above 15 for eight of the 251 scores when the last
    known condition is the score of an observation that was not
    repaired, and for eight when it is a repaired score plus 20.  A last
    known condition 15.1 above always gives a difference above 15, one
    14.9 above never. *)
Lemma drops_of_15_on_doubles :
  let above last score :=
    PrimFloat.ltb (F64.of_int 15) (PrimFloat.sub last score) in
  let unrepaired apart k :=
    above (F64.of_Q ((k + apart) # 10)) (F64.of_Q (k # 10)) in
  let repaired apart k :=
    above
      (F64.min_100
         (PrimFloat.add (F64.of_Q ((k + apart - 200) # 10)) (F64.of_int 20)))
      (F64.of_Q (k # 10)) in
  (List.length (filter (unrepaired 150) (range 600 851)) = 8%nat
   /\ List.length (filter (repaired 150) (range 600 851)) = 8%nat)
  /\ (forallb (unrepaired 151) (range 600 850) = true
      /\ forallb (repaired 151) (range 600 850) = true)
  /\ (existsb (unrepaired 149) (range 600 852) = false
      /\ existsb (repaired 149) (range 600 852) = false).
Proof. cbv zeta. repeat split; vm_compute; reflexivity. Qed.

(** The cost of a preventive repair on four lanes at a traffic volume of
    20025: the exact product is 16002, the product of the doubles is just
    below it and is truncated to 16001. *)
Example cost_truncated_below :
  let row :=
    mkcond "R001" "R001_S001" (mkdate 2020 1 1) 4 70 130 9 0
      (3 # 10) 0 50 20025 Arterial (398283 # 10000) (- (985795 # 10000)) in
  total_cost 8000 row = 16002 /\ F64.total_cost 8000 row = 16001.
Proof. split; vm_compute; reflexivity. Qed.

Lemma constant_70_repairs_witness :
  (forall first rest, steady_segment = first :: rest ->
     needs_repair None 100 first = true)
  /\ (forall row d last_cond,
        In row steady_segment -> days_between (c_date row) d > 365 ->
        needs_repair (Some d) last_cond row = true)
  /\ (forall (records : list maintenance_row) (id : N) (s : N),
        List.length
          (maintenance_records
             (fst (for_fold steady_segment maintenance_step
                     (mkscan records id None 100) s)))
        = (List.length records + List.length steady_segment)%nat)
  /\ (forall row,
        In row steady_segment -> (c_cracking_percent row <= 20)%Q ->
        repair_category row = preventive_maintenance).
Proof.
  apply (constant_70_repairs steady_segment).
  apply Forall_forall. intros r Hr.
  apply in_map_iff in Hr as [d [<- _]]. split; reflexivity.
Defined.

(** The steady segment over the twenty quarters: twenty repairs, numbered
    in sequence, all preventive. *)
Example steady_segment_run :
  map (fun m => (m_maintenance_id m, m_repair_type m))
    (fst (generate_maintenance_records steady_segment 42%N))
  = map (fun k => (maintenance_name k, preventive_maintenance))
      (rangeN 1 21).
Proof. vm_compute. reflexivity. Qed.

(** The reporting periods are the twenty quarter starts of 2020..2024;
    the loop leaves by its test, whatever fuel is left. *)
Lemma report_dates_quarters (extra : nat) :
  dates_while (21 + extra) start_date = report_dates
  /\ List.length report_dates = 20%nat
  /\ Forall (fun d => in_list (month d) [1; 4; 7; 10] = true /\ day d = 1)
       report_dates.
Proof.
  split; [reflexivity|]. split; [reflexivity|].
  unfold report_dates. simpl. repeat constructor.
Qed.

(* ------------------------------------------------------------------ *)
(** * Layout of the network and condition tables *)

Lemma string_app_inj (a b x y : string) :
  (a ++ x)%string = (b ++ y)%string -> String.length a = String.length b ->
  a = b /\ x = y.
Proof.
  revert b. induction a as [|c a IH]; intros [|c' b] H L; simpl in *;
    try discriminate.
  - now split.
  - injection H as -> H. injection L as L.
    destruct (IH b H L) as [-> ->]. now split.
Qed.

Lemma road_name_inj (i j : N) : road_name i = road_name j -> i = j.
Proof.
  unfold road_name. simpl. intro H. injection H as H.
  now apply format_d_inj in H.
Qed.

(** The segment identifiers determine the road and the sequence number. *)
Lemma segment_name_inj (i j k l : N) :
  In i (rangeN 1 (n_roads + 1)) -> In j (rangeN 1 (n_roads + 1)) ->
  segment_name (road_name i) k = segment_name (road_name j) l ->
  i = j /\ k = l.
Proof.
  intros Hi Hj H. unfold segment_name in H.
  apply string_app_inj in H as [Hr Hs];
    [| now rewrite !road_name_length].
  split; [now apply road_name_inj|].
  simpl in Hs. injection Hs as Hs. now apply format_d_inj in Hs.
Qed.

Lemma NoDup_flat_map {A B} (f : A -> list B) (l : list A) :
  NoDup l ->
  (forall a, In a l -> NoDup (f a)) ->
  (forall a a' b, In a l -> In a' l -> In b (f a) -> In b (f a') -> a = a') ->
  NoDup (flat_map f l).
Proof.
  induction 1 as [|x l Hx Hl IH]; intros Hf Hd; simpl.
  - constructor.
  - apply NoDup_app.
    + apply Hf. now left.
    + apply IH.
      * intros a Ha. apply Hf. now right.
      * intros a a' b Ha Ha'. apply Hd; now right.
    + intros b Hb Hb'. apply in_flat_map in Hb' as [a [Ha Hba]].
      assert (x = a)
        by (apply (Hd x a b); [now left | now right | exact Hb | exact Hba]).
      subst. contradiction.
Qed.

Lemma combine_NoDup {A B} (xs : list A) (ys : list B) :
  NoDup xs -> NoDup (combine xs ys).
Proof.
  intro H. revert ys. induction H as [|x xs Hx _ IH]; intros [|y ys]; simpl;
    try constructor.
  - intro Hin. apply in_combine_l in Hin. contradiction.
  - apply IH.
Qed.

Lemma combine_functional {A B} (xs : list A) (ys : list B) a b b' :
  NoDup xs -> In (a, b) (combine xs ys) -> In (a, b') (combine xs ys) ->
  b = b'.
Proof.
  intro H. revert ys. induction H as [|x xs Hx _ IH]; intros [|y ys];
    simpl; try tauto.
  intros [E | Hin] [E' | Hin'].
  - congruence.
  - injection E as -> _. apply in_combine_l in Hin'. contradiction.
  - injection E' as -> _. apply in_combine_l in Hin. contradiction.
  - now apply (IH ys).
Qed.

Section Layout.

Context {rng : Type} {NP : Numpy rng}.

(** A column of each item that the body fills from the loop variable and
    one further value. *)
Lemma for_each_shape {A B C Y} (f : B -> C) (g : A -> Y -> C) (xs : list A)
    (body : A -> Gen rng B) :
  (forall x s, exists y, f (fst (body x s)) = g x y) ->
  forall s, exists ys,
    List.length ys = List.length xs
    /\ map f (fst (for_each xs body s))
       = map (fun p => g (fst p) (snd p)) (combine xs ys).
Proof.
  intro Hb. induction xs as [|x xs IH]; intro s.
  - exists []. now split.
  - rewrite for_each_cons.
    destruct (Hb x s) as [y Hy].
    destruct (IH (snd (body x s))) as [ys [Hl Hm]].
    exists (y :: ys). simpl. split; [now rewrite Hl|].
    now rewrite Hy, Hm.
Qed.

Lemma network_road_keys (road_id : N) (s : rng) :
  exists count,
    map road_key (fst (network_road road_id s))
    = road_segment_keys road_id count.
Proof.
  unfold network_road. rewrite bind_run.
  exists (fst (np_poisson 40 s)). unfold road_segment_keys.
  apply for_each_map. intros seg_id s'.
  destruct (network_segment_row (road_name road_id) seg_id s')
    as (Hr & Hs & _).
  unfold road_key. now rewrite Hr, Hs.
Qed.

Lemma road_network_keys (s : rng) :
  exists counts,
    List.length counts = 200%nat
    /\ map road_key (fst (generate_road_network s))
       = flat_map (fun p => road_segment_keys (fst p) (snd p))
           (combine (rangeN 1 (n_roads + 1)) counts).
Proof.
  unfold generate_road_network. rewrite bind_run. unfold ret. cbn [fst].
  destruct (for_each_shape (map road_key) road_segment_keys
              (rangeN 1 (n_roads + 1)) network_road network_road_keys s)
    as [counts [Hl Hm]].
  exists counts. split; [now rewrite Hl, rangeN_length|].
  now rewrite concat_map, Hm, flat_map_concat_map.
Qed.

Lemma segment_ids_NoDup (s : rng) :
  NoDup (map rd_segment_id (fst (generate_road_network s))).
Proof.
  destruct (road_network_keys s) as [counts [_ Hk]].
  replace (map rd_segment_id (fst (generate_road_network s)))
    with (map snd (map road_key (fst (generate_road_network s))))
    by (rewrite map_map; reflexivity).
  rewrite Hk.
  assert (K : NoDup (flat_map (fun p => map snd (road_segment_keys (fst p) (snd p)))
                       (combine (rangeN 1 (n_roads + 1)) counts))).
  { apply NoDup_flat_map.
    - apply combine_NoDup, rangeN_NoDup.
    - intros [i n] _. unfold road_segment_keys. rewrite map_map. simpl.
      apply Injective_map_NoDup; [|apply rangeN_NoDup].
      intros k l H. unfold segment_name in H.
      apply string_app_inj in H as [_ H]; [|reflexivity].
      simpl in H. injection H as H. now apply format_d_inj in H.
    - intros [i n] [j m] b Hi Hj Hb Hb'. simpl in Hb, Hb'.
      unfold road_segment_keys in Hb, Hb'. rewrite map_map in Hb, Hb'.
      apply in_map_iff in Hb as [k [<- _]].
      apply in_map_iff in Hb' as [l [E _]]. simpl in E.
      pose proof (in_combine_l _ _ _ _ Hi) as Ri.
      pose proof (in_combine_l _ _ _ _ Hj) as Rj.
      destruct (segment_name_inj j i l k Rj Ri E) as [-> _].
      f_equal. exact (combine_functional _ _ _ _ _ (rangeN_NoDup _ _) Hi Hj). }
  clear Hk. revert K.
  generalize (combine (rangeN 1 (n_roads + 1)) counts) as ps.
  intros ps K.
  replace (map snd (flat_map (fun p => road_segment_keys (fst p) (snd p)) ps))
    with (flat_map (fun p => map snd (road_segment_keys (fst p) (snd p))) ps);
    [exact K|].
  rewrite !flat_map_concat_map, concat_map, map_map. reflexivity.
Qed.

(** X1. The network table lists the roads R001..R200 in order, each with
    its segments S001, S002, ... up to its segment count, and no segment
    identifier occurs twice. *)
Theorem network_layout (s : rng) :
  let roads_df := fst (generate_road_network s) in
  (exists counts,
      List.length counts = 200%nat
      /\ map road_key roads_df
         = flat_map (fun p => road_segment_keys (fst p) (snd p))
             (combine (rangeN 1 (n_roads + 1)) counts))
  /\ NoDup (map rd_segment_id roads_df).
Proof.
  cbv zeta. split; [apply road_network_keys | apply segment_ids_NoDup].
Qed.

Lemma condition_keys (roads_df : list road_row) (s : rng) :
  map condition_key (fst (generate_pavement_condition_data roads_df s))
  = flat_map (fun date =>
                map (fun r => (date, rd_road_id r, rd_segment_id r)) roads_df)
      report_dates.
Proof.
  unfold generate_pavement_condition_data. rewrite bind_run. unfold ret.
  cbn [fst]. rewrite concat_map, flat_map_concat_map. f_equal.
  apply for_each_map. intros date s1.
  apply for_each_map. intros road s2.
  destruct (condition_record_row date road s2) as ((Hr & Hs & _) & _ & Hd).
  unfold condition_key. now rewrite Hr, Hs, Hd.
Qed.

Lemma condition_length (roads_df : list road_row) (s : rng) :
  List.length (fst (generate_pavement_condition_data roads_df s))
  = (20 * List.length roads_df)%nat.
Proof.
  pose proof (condition_keys roads_df s) as K.
  apply (f_equal (@List.length _)) in K.
  rewrite length_map, length_flat_map in K. rewrite K.
  destruct (report_dates_quarters 0) as (_ & L & _).
  clear K. revert L. generalize report_dates as ds.
  intros ds L.
  rewrite (map_ext _ (fun _ => List.length roads_df))
    by (intro d; apply length_map).
  rewrite <- L. clear L. induction ds as [|d ds IH]; simpl; [reflexivity|].
  now rewrite IH.
Qed.

(** X2. The condition table has one row per reporting date and network
    row: the dates in chronological order and, within a date, the segments
    in network order; twenty rows per network row in all. *)
Theorem condition_layout (roads_df : list road_row) (s : rng) :
  let condition_df := fst (generate_pavement_condition_data roads_df s) in
  map condition_key condition_df
  = flat_map (fun date =>
                map (fun r => (date, rd_road_id r, rd_segment_id r)) roads_df)
      report_dates
  /\ List.length condition_df = (20 * List.length roads_df)%nat.
Proof.
  cbv zeta. split; [apply condition_keys | apply condition_length].
Qed.

Lemma filter_absent {A} (key : A -> string) (k : string) (l : list A) :
  ~ In k (map key l) -> filter (fun y => String.eqb (key y) k) l = [].
Proof.
  induction l as [|y l IH]; simpl; [reflexivity|].
  intro H. destruct (String.eqb_spec (key y) k) as [E | _]; [tauto|].
  apply IH. tauto.
Qed.

(** A key that occurs, and only once, selects one row. *)
Lemma filter_unique_key {A} (key : A -> string) (k : string) (l : list A) :
  NoDup (map key l) -> In k (map key l) ->
  exists x, In x l /\ filter (fun y => String.eqb (key y) k) l = [x].
Proof.
  induction l as [|y l IH]; simpl; [tauto|].
  intros Hn Hin. apply NoDup_cons_iff in Hn as [Hy Hn].
  destruct (String.eqb_spec (key y) k) as [E | D].
  - exists y. split; [now left|]. f_equal.
    apply filter_absent. now rewrite <- E.
  - destruct Hin as [E | Hin]; [contradiction|].
    destruct (IH Hn Hin) as [x [Hx Hf]]. exists x. split; [now right | exact Hf].
Qed.

Lemma concat_singletons {A} (l : list A) :
  List.concat (map (fun x => [x]) l) = l.
Proof. induction l; simpl; congruence. Qed.

Lemma StronglySorted_map_inv {A B} (R : B -> B -> Prop) (f : A -> B)
    (l : list A) :
  StronglySorted R (map f l) -> StronglySorted (fun a b => R (f a) (f b)) l.
Proof.
  induction l as [|x l IH]; simpl; intro H.
  - constructor.
  - apply StronglySorted_inv in H as [Hs Hall].
    constructor; [now apply IH|].
    rewrite Forall_map in Hall. exact Hall.
Qed.

(** The reporting dates are in strictly increasing order. *)
Lemma report_dates_increasing :
  StronglySorted (fun a b => toordinal a < toordinal b) report_dates.
Proof.
  apply (StronglySorted_map_inv Z.lt toordinal).
  remember (map toordinal report_dates) as ordinals eqn:E.
  vm_compute in E. subst ordinals.
  repeat (apply SSorted_cons;
          [| repeat (apply Forall_cons; [lia|]); apply Forall_nil]).
  apply SSorted_nil.
Qed.

(** Sorting leaves rows alone that are already in strict date order. *)
Lemma sort_by_date_sorted_id (rows : list condition_row) :
  StronglySorted (fun a b => toordinal (c_date a) < toordinal (c_date b)) rows ->
  sort_by_date rows = rows.
Proof.
  induction 1 as [|r rows _ IH Hall]; simpl; [reflexivity|].
  rewrite IH. destruct rows as [|r' rest]; [reflexivity|].
  simpl. apply Forall_inv in Hall.
  destruct (Z.leb_spec (toordinal (c_date r')) (toordinal (c_date r)));
    [lia | reflexivity].
Qed.

(** In a table generated from a network with distinct segment identifiers
    every segment has one observation per reporting date, in date order. *)
Lemma segment_observation_dates (roads_df : list road_row) (s : rng)
    (segment_id : string) :
  NoDup (map rd_segment_id roads_df) ->
  In segment_id (map rd_segment_id roads_df) ->
  map c_date
    (rows_of_segment (fst (generate_pavement_condition_data roads_df s))
       segment_id)
  = report_dates.
Proof.
  intros Hn Hin. unfold rows_of_segment, generate_pavement_condition_data.
  rewrite bind_run. unfold ret. cbn [fst].
  rewrite <- concat_filter_map, concat_map, map_map.
  rewrite <- (concat_singletons report_dates) at 2. f_equal.
  apply (for_each_map
           (fun g => map c_date
                       (filter (fun r => String.eqb (c_segment_id r) segment_id) g))
           (fun d => [d])).
  intros date s1.
  set (group := fst (for_each roads_df (condition_record date) s1)).
  assert (Hk : map c_segment_id group = map rd_segment_id roads_df).
  { apply for_each_map. intros road s2.
    now destruct (condition_record_row date road s2) as ((_ & Hs & _) & _). }
  assert (Hd : Forall (fun c => c_date c = date) group).
  { apply for_each_Forall. intros road s2 _.
    now destruct (condition_record_row date road s2) as (_ & _ & H). }
  rewrite <- Hk in Hn, Hin.
  destruct (filter_unique_key c_segment_id segment_id group Hn Hin)
    as [x [Hx ->]].
  simpl. f_equal. rewrite Forall_forall in Hd. now apply Hd.
Qed.

(** X3. In a run of [main] every segment of the network has exactly one
    observation per reporting date, and its observations are already in
    strict chronological order in the condition table: the sort of the
    maintenance pass leaves them as they are. *)
Theorem segment_observations_chronological (s : rng) :
  let d := fst (main s) in
  Forall (fun r =>
            let rows := rows_of_segment (pavement_condition d)
                          (rd_segment_id r) in
            map c_date rows = report_dates
            /\ List.length rows = 20%nat
            /\ sort_by_date rows = rows)
    (road_network d).
Proof.
  cbv zeta. destruct (main_stages s) as (s1 & _ & _ & Hn & Hc & _).
  apply Forall_forall. intros r Hr.
  assert (D : map c_date (rows_of_segment (pavement_condition (fst (main s)))
                            (rd_segment_id r)) = report_dates).
  { rewrite Hc. apply segment_observation_dates.
    - rewrite Hn. apply segment_ids_NoDup.
    - now apply in_map. }
  split; [exact D|]. split.
  - rewrite <- (length_map c_date), D.
    now destruct (report_dates_quarters 0) as (_ & L & _).
  - apply sort_by_date_sorted_id.
    apply (StronglySorted_map_inv (fun a b => toordinal a < toordinal b) c_date).
    rewrite D. apply report_dates_increasing.
Qed.

Lemma condition_record_freeze_thaw (date : datetime) (road : road_row)
    (s : rng) :
  in_list (month date) [12; 1; 2] = false ->
  c_freeze_thaw_cycles (fst (condition_record date road s)) = 0.
Proof.
  intro H. unfold condition_record. rewrite !bind_run. rewrite H.
  unfold ret. reflexivity.
Qed.

(** X4. Every condition row is dated the first day of January, April,
    July or October of 2020..2024, and its freeze-thaw count is 0 unless
    it is a January row: the December and February cases of the winter
    rule never apply. *)
Theorem condition_dates_quarterly (roads_df : list road_row) (s : rng) :
  Forall (fun c =>
            In (month (c_date c)) [1; 4; 7; 10]
            /\ day (c_date c) = 1
            /\ 2020 <= year (c_date c) <= 2024
            /\ (month (c_date c) <> 1 -> c_freeze_thaw_cycles c = 0))
    (fst (generate_pavement_condition_data roads_df s)).
Proof.
  unfold generate_pavement_condition_data. rewrite bind_run. unfold ret.
  cbn [fst]. apply Forall_concat_intro. apply for_each_Forall.
  intros date s1 Hdate. apply for_each_Forall. intros road s2 _.
  destruct (condition_record_row date road s2) as (_ & _ & Hd).
  pose proof (condition_record_freeze_thaw date road s2) as Hf.
  rewrite Hd.
  assert (Q : Forall (fun d => In (month d) [1; 4; 7; 10] /\ day d = 1
                               /\ 2020 <= year d <= 2024) report_dates).
  { unfold report_dates. simpl.
    repeat (constructor; [simpl; intuition lia|]). constructor. }
  rewrite Forall_forall in Q. destruct (Q date Hdate) as (Hm & Hday & Hy).
  repeat split; try assumption; try lia.
  intro N. apply Hf. simpl in Hm.
  destruct Hm as [E | [E | [E | [E | []]]]]; rewrite <- E in *;
    try reflexivity; congruence.
Qed.

End Layout.

(* ------------------------------------------------------------------ *)
(** * Shape of the maintenance table *)

Lemma follows_length rows ms :
  follows rows ms -> (List.length ms <= List.length rows)%nat.
Proof. induction 1; simpl; lia. Qed.

Lemma follows_source rows ms :
  follows rows ms ->
  Forall (fun m => exists row id, In row rows /\ recorded_from id row m) ms.
Proof.
  induction 1 as [|row rows ms _ IH|row rows m ms [id R] _ IH].
  - constructor.
  - eapply Forall_impl; [|exact IH].
    intros m (r & id & Hin & R). exists r, id. split; [now right | exact R].
  - constructor.
    + exists row, id. split; [now left | exact R].
    + eapply Forall_impl; [|exact IH].
      intros m' (r & id' & Hin & R'). exists r, id'.
      split; [now right | exact R'].
Qed.

Lemma follows_sorted rows ms :
  follows rows ms -> StronglySorted not_after rows ->
  StronglySorted recorded_not_after ms.
Proof.
  induction 1 as [|row rows ms _ IH|row rows m ms [id R] F IH]; intro S.
  - constructor.
  - apply StronglySorted_inv in S as [S _]. now apply IH.
  - apply StronglySorted_inv in S as [S Hall].
    constructor; [now apply IH|].
    pose proof (follows_source _ _ F) as Src.
    eapply Forall_impl; [|exact Src].
    intros m' (r & id' & Hin & R').
    rewrite Forall_forall in Hall. specialize (Hall r Hin).
    destruct R as (_ & _ & _ & Hd & _). destruct R' as (_ & _ & _ & Hd' & _).
    unfold recorded_not_after, not_after in *. now rewrite Hd, Hd'.
Qed.

Lemma list_sum_map_add {A} (f g : A -> nat) (l : list A) :
  list_sum (map (fun x => (f x + g x)%nat) l)
  = (list_sum (map f l) + list_sum (map g l))%nat.
Proof. induction l as [|x l IH]; simpl; lia. Qed.

Lemma indicator_sum (k : string) (segs : list string) :
  NoDup segs -> In k segs ->
  list_sum (map (fun seg => if String.eqb k seg then 1%nat else 0%nat) segs)
  = 1%nat.
Proof.
  induction 1 as [|x segs Hx _ IH]; simpl; [tauto|].
  intros [-> | Hin].
  - rewrite String.eqb_refl.
    replace (list_sum _) with 0%nat; [reflexivity|].
    symmetry. clear IH. induction segs as [|y segs IH]; [reflexivity|].
    simpl. destruct (String.eqb_spec k y) as [-> | _].
    + exfalso. apply Hx. now left.
    + apply IH. intro H. apply Hx. now right.
  - destruct (String.eqb_spec k x) as [-> | _]; [contradiction|].
    now apply IH.
Qed.

(** The segments partition the condition table. *)
Lemma segments_partition (condition_df : list condition_row) :
  list_sum (map (fun seg => List.length (rows_of_segment condition_df seg))
              (unique (map c_segment_id condition_df)))
  = List.length condition_df.
Proof.
  destruct (unique_spec (map c_segment_id condition_df)) as [Hn Hin].
  revert Hn Hin. generalize (unique (map c_segment_id condition_df)) as segs.
  intros segs Hn Hin.
  assert (Hall : forall r, In r condition_df -> In (c_segment_id r) segs).
  { intros r Hr. apply Hin. now apply in_map. }
  clear Hin. induction condition_df as [|r df IH].
  - clear Hn Hall. induction segs as [|x segs IHs]; simpl;
      [reflexivity | exact IHs].
  - unfold rows_of_segment in *. simpl.
    rewrite (map_ext _ (fun seg =>
               ((if String.eqb (c_segment_id r) seg then 1 else 0)
                + List.length
                    (filter (fun r0 => String.eqb (c_segment_id r0) seg) df))%nat)).
    + rewrite list_sum_map_add, IH, indicator_sum; auto.
      * apply Hall. now left.
      * intros r' Hr'. apply Hall. now right.
    + intro seg. now destruct (String.eqb (c_segment_id r) seg).
Qed.

Section MaintenanceTable.

Context {rng : Type} {NP : Numpy rng}.

(** The records one segment adds follow its observations. *)
Lemma for_fold_follows (rows : list condition_row) (st : scan) (s : rng) :
  exists ms,
    maintenance_records (fst (for_fold rows maintenance_step st s))
    = maintenance_records st ++ ms
    /\ follows rows ms.
Proof.
  revert st s. induction rows as [|row rows IH]; intros st s.
  - exists []. simpl. split; [now rewrite app_nil_r | constructor].
  - simpl. rewrite bind_run.
    destruct (needs_repair (last_repair_date st) (last_condition st) row)
      eqn:E.
    + destruct (maintenance_step_repair st row s E) as [m [R Hs]].
      destruct (IH (fst (maintenance_step st row s))
                  (snd (maintenance_step st row s))) as [ms [Hm F]].
      exists (m :: ms). rewrite Hm, Hs. cbn [maintenance_records].
      split; [now rewrite <- app_assoc|].
      constructor; [|exact F]. now exists (maintenance_id st).
    + rewrite (maintenance_step_skip st row s E). cbn [fst snd].
      destruct (IH (mkscan (maintenance_records st) (maintenance_id st)
                      (last_repair_date st) (c_condition_score row)) s)
        as [ms [Hm F]].
      exists ms. split; [exact Hm | now constructor].
Qed.

Lemma segments_follow (condition_df : list condition_row)
    (segs : list string) (st : scan) (s : rng) :
  exists groups,
    maintenance_records
      (fst (for_fold segs (maintenance_segment condition_df) st s))
    = maintenance_records st ++ List.concat groups
    /\ Forall2 (fun seg g =>
                  follows (sort_by_date (rows_of_segment condition_df seg)) g)
         segs groups.
Proof.
  revert st s. induction segs as [|seg segs IH]; intros st s.
  - exists []. simpl. split; [now rewrite app_nil_r | constructor].
  - simpl. rewrite bind_run.
    destruct (IH (fst (maintenance_segment condition_df st seg s))
                (snd (maintenance_segment condition_df st seg s)))
      as [groups [Hg F]].
    destruct (for_fold_follows
                (sort_by_date (rows_of_segment condition_df seg))
                (mkscan (maintenance_records st) (maintenance_id st) None 100) s)
      as [g [Hm Fg]].
    exists (g :: groups). split; [|now constructor].
    rewrite Hg. unfold maintenance_segment at 1. rewrite Hm.
    simpl. now rewrite <- app_assoc.
Qed.

Lemma maintenance_groups (condition_df : list condition_row) (s : rng) :
  exists groups,
    fst (generate_maintenance_records condition_df s) = List.concat groups
    /\ Forall2
         (fun seg g =>
            Forall (fun m => m_segment_id m = seg) g
            /\ StronglySorted recorded_not_after g
            /\ (List.length g
                <= List.length (rows_of_segment condition_df seg))%nat)
         (unique (map c_segment_id condition_df)) groups.
Proof.
  unfold generate_maintenance_records. rewrite bind_run.
  unfold ret. cbn [fst].
  destruct (segments_follow condition_df
              (unique (map c_segment_id condition_df))
              (mkscan [] 1 None 100) s) as [groups [Hg F]].
  rewrite Hg. cbn [maintenance_records app].
  exists groups. split; [reflexivity|].
  eapply Forall2_impl; [|exact F].
  intros seg g Fg. split; [|split].
  - eapply Forall_impl; [|exact (follows_source _ _ Fg)].
    intros m (row & id & Hin & R).
    rewrite sort_by_date_In in Hin. apply filter_In in Hin as [_ Hin].
    apply String.eqb_eq in Hin. destruct R as (_ & _ & -> & _). exact Hin.
  - apply (follows_sorted _ _ Fg), sort_by_date_sorted.
  - apply follows_length in Fg.
    now rewrite (Permutation_length (sort_by_date_perm _)) in Fg.
Qed.

Lemma maintenance_length_le (condition_df : list condition_row) (s : rng) :
  (List.length (fst (generate_maintenance_records condition_df s))
   <= List.length condition_df)%nat.
Proof.
  destruct (maintenance_groups condition_df s) as [groups [-> G]].
  rewrite <- (segments_partition condition_df), length_concat.
  induction G as [|seg g segs groups (_ & _ & L) _ IH]; simpl; lia.
Qed.

(** X7. The maintenance table is grouped by segment, the segments in the
    order of their first observation; within a segment the records are in
    date order, at most one per observation; so the table has no more rows
    than the condition table. *)
Theorem maintenance_table_shape
    (condition_df : list condition_row) (s : rng) :
  let maintenance_df := fst (generate_maintenance_records condition_df s) in
  (exists groups,
      maintenance_df = List.concat groups
      /\ Forall2
           (fun seg g =>
              Forall (fun m => m_segment_id m = seg) g
              /\ StronglySorted recorded_not_after g
              /\ (List.length g
                  <= List.length (rows_of_segment condition_df seg))%nat)
           (unique (map c_segment_id condition_df)) groups)
  /\ (List.length maintenance_df <= List.length condition_df)%nat.
Proof.
  cbv zeta. split; [apply maintenance_groups | apply maintenance_length_le].
Qed.

End MaintenanceTable.

(* ------------------------------------------------------------------ *)
(** * Consequences of the maintenance rules *)

Lemma int_lower (n : Z) (x : Q) : 0 <= n -> (inject_Z n <= x)%Q -> n <= Py.int x.
Proof.
  intros Hn H. unfold Py.int.
  assert (P : (0 <= x)%Q).
  { eapply Qle_trans; [|exact H]. now rewrite <- (Zle_Qle 0). }
  rewrite (proj2 (Qle_bool_iff 0 x) P).
  rewrite <- (Qfloor_Z n). now apply Qfloor_resp_le.
Qed.

Lemma repair_plan_base_cost (row : condition_row) :
  snd (fst (repair_plan row)) = base_cost_of (repair_category row).
Proof.
  unfold repair_category, repair_plan.
  destruct (_ <? _)%Q; [reflexivity|].
  destruct (_ >? _); [reflexivity|].
  destruct (_ >? _)%Q; reflexivity.
Qed.

Lemma resurfacing_iff (row : condition_row) :
  repair_category row = resurfacing <-> (c_condition_score row < 40)%Q.
Proof.
  rewrite <- Qltb_lt. unfold repair_category, repair_plan.
  destruct (_ <? _)%Q; [tauto|].
  destruct (_ >? _); [simpl; split; discriminate|].
  destruct (_ >? _)%Q; simpl; split; discriminate.
Qed.

(** On a segment with at least two lanes and a baseline of at least 1000
    the cost factor is at least 1.41. *)
Lemma total_cost_lower (row : condition_row) :
  2 <= c_lanes row -> 1000 <= c_traffic_volume row ->
  least_cost_of (repair_category row)
  <= total_cost (snd (fst (repair_plan row))) row.
Proof.
  intros Hl Ht.
  assert (L : (2 <= inject_Z (c_lanes row))%Q) by now rewrite <- (Zle_Qle 2).
  assert (T : (1 # 100 <= inject_Z (c_traffic_volume row) / 100000)%Q).
  { apply Qle_shift_div_l; [reflexivity|].
    setoid_replace ((1 # 100) * 100000)%Q with (inject_Z 1000) by reflexivity.
    now rewrite <- Zle_Qle. }
  unfold total_cost, repair_category, repair_plan.
  destruct (_ <? _)%Q; [|destruct (_ >? _); [|destruct (_ >? _)%Q]];
    cbn [fst snd least_cost_of]; (apply int_lower; [lia|]).
  - change (inject_Z 70500) with (70500 # 1).
    change (inject_Z 50000) with (50000 # 1). lra.
  - change (inject_Z 7050) with (7050 # 1).
    change (inject_Z 5000) with (5000 # 1). lra.
  - change (inject_Z 21150) with (21150 # 1).
    change (inject_Z 15000) with (15000 # 1). lra.
  - change (inject_Z 11280) with (11280 # 1).
    change (inject_Z 8000) with (8000 # 1). lra.
Qed.

Section Rules.

Context {rng : Type} {NP : Numpy rng}.

(** X5. At the first observation of a segment (no repair yet, last known
    condition 100) the four triggers come down to two: a record is
    appended exactly when the score is below 85 or there are more than 5
    potholes. *)
Theorem first_observation_rule
    (records : list maintenance_row) (id : N) (row : condition_row) (s : rng) :
  (exists m,
      maintenance_records
        (fst (maintenance_step (mkscan records id None 100) row s))
      = records ++ [m])
  <-> ((c_condition_score row < 85)%Q \/ c_pothole_count row > 5).
Proof.
  assert (R : needs_repair None 100 row = true
              <-> ((c_condition_score row < 85)%Q \/ c_pothole_count row > 5)).
  { rewrite needs_repair_iff. split.
    - intros [H | [H | [H | [d [H _]]]]]; [left; lra | now right | left; lra
                                          | discriminate].
    - intros [H | H]; [right; right; left; lra | now right; left]. }
  rewrite <- R.
  destruct (needs_repair None 100 row) eqn:E.
  - split; [reflexivity|]. intros _.
    destruct (maintenance_step_repair (mkscan records id None 100) row s E)
      as [m [_ ->]].
    now exists m.
  - rewrite (maintenance_step_skip (mkscan records id None 100) row s E).
    simpl. split; [|discriminate].
    intros [m H]. apply (f_equal (@List.length _)) in H.
    rewrite length_app in H. simpl in H. lia.
Qed.

(** X6. A repair raises the last known condition to the repaired score
    plus 20 (at most 100), so the next observation of the segment is
    repaired again whenever its score is more than 15 below that: after a
    repair at a score of at most 80, whenever the next score is less than
    5 above the repaired one. *)
Theorem repair_follows_repair
    (st : scan) (prev cur : condition_row) (s : rng) :
  needs_repair (last_repair_date st) (last_condition st) prev = true ->
  let st' := fst (maintenance_step st prev s) in
  ((c_condition_score cur
    < Py.min 100 (c_condition_score prev + 20) - 15)%Q ->
   needs_repair (last_repair_date st') (last_condition st') cur = true)
  /\ ((c_condition_score prev <= 80)%Q ->
      (c_condition_score cur < c_condition_score prev + 5)%Q ->
      needs_repair (last_repair_date st') (last_condition st') cur = true).
Proof.
  intro E. cbv zeta.
  destruct (maintenance_step_repair st prev s E) as [m [_ ->]].
  cbn [last_repair_date last_condition].
  assert (G : (c_condition_score cur
               < Py.min 100 (c_condition_score prev + 20) - 15)%Q ->
              needs_repair (Some (c_date prev))
                (Py.min 100 (c_condition_score prev + 20)) cur = true).
  { intro H. apply needs_repair_iff. right. right. left. lra. }
  split; [exact G|].
  intros P C. apply G. unfold Py.min.
  destruct (_ <? _)%Q eqn:B; [lra|].
  apply Qltb_ge in B. lra.
Qed.

(** A triggered observation appends one record whose contractor is one
    of the pool and whose weather delay is not negative. *)
Lemma maintenance_step_record (st : scan) (row : condition_row) (s : rng) :
  needs_repair (last_repair_date st) (last_condition st) row = true ->
  exists m,
    maintenance_records (fst (maintenance_step st row s))
    = maintenance_records st ++ [m]
    /\ recorded_from (maintenance_id st) row m
    /\ In (m_contractor m) contractor_pool
    /\ 0 <= m_weather_delay_days m.
Proof.
  intro H. unfold maintenance_step. rewrite H.
  unfold recorded_from, repair_category.
  destruct (repair_plan row) as [[kind base_cost] effectiveness].
  rewrite !bind_run. unfold ret. cbn [fst snd maintenance_records].
  eexists. split; [reflexivity|].
  cbn [m_maintenance_id m_road_id m_segment_id m_date m_repair_type m_cost
       m_lanes_affected m_condition_before m_traffic_volume m_contractor
       m_weather_delay_days].
  split; [repeat split|]. split.
  - apply np_choice_In.
  - destruct (_ >? _)%Q.
    + rewrite bind_run. unfold ret. cbn [fst]. lia.
    + unfold ret. cbn [fst]. lia.
Qed.

(** A property of every record a step may append holds for the table. *)
Lemma maintenance_table_Forall (P : maintenance_row -> Prop)
    (condition_df : list condition_row) (s : rng) :
  (forall st row s' m,
      needs_repair (last_repair_date st) (last_condition st) row = true ->
      maintenance_records (fst (maintenance_step st row s'))
      = maintenance_records st ++ [m] ->
      P m) ->
  Forall P (fst (generate_maintenance_records condition_df s)).
Proof.
  intro HP. unfold generate_maintenance_records. rewrite bind_run.
  unfold ret. cbn [fst].
  apply (for_fold_invariant (fun st => Forall P (maintenance_records st)));
    [|constructor].
  intros st seg s1 _ Hst. unfold maintenance_segment.
  apply for_fold_invariant; [|exact Hst].
  intros st' row s2 _ Hst'.
  destruct (needs_repair (last_repair_date st') (last_condition st') row)
    eqn:E.
  - destruct (maintenance_step_repair st' row s2 E) as [m [_ Hm]].
    pose proof (HP st' row s2 m E) as Pm.
    rewrite Hm in *. cbn [maintenance_records] in *.
    apply Forall_app. split; [exact Hst'|]. constructor; [now apply Pm|constructor].
  - now rewrite (maintenance_step_skip st' row s2 E).
Qed.

(** X8. In every maintenance record the category is resurfacing exactly
    when the condition before the repair was below 40; the contractor is
    one of the five of the pool; the weather delay is not negative; and
    road, segment, date, condition before, lanes and traffic volume are
    those of an observation of the condition table, which has more than
    3 potholes if the category is pothole patch. *)
Theorem maintenance_rows_consistent
    (condition_df : list condition_row) (s : rng) :
  Forall (fun m =>
            (m_repair_type m = resurfacing
             <-> (m_condition_before m < 40)%Q)
            /\ In (m_contractor m) contractor_pool
            /\ 0 <= m_weather_delay_days m
            /\ exists row,
                 In row condition_df
                 /\ created_at row m
                 /\ m_lanes_affected m = c_lanes row
                 /\ m_traffic_volume m = c_traffic_volume row
                 /\ (m_repair_type m = pothole_patch
                     -> c_pothole_count row > 3))
    (fst (generate_maintenance_records condition_df s)).
Proof.
  pose proof (generate_maintenance_records_source condition_df s) as Src.
  pose proof (maintenance_table_Forall
                (fun m =>
                   In (m_contractor m) contractor_pool
                   /\ 0 <= m_weather_delay_days m) condition_df s) as Pool.
  assert (P : Forall (fun m =>
                        In (m_contractor m) contractor_pool
                        /\ 0 <= m_weather_delay_days m)
                (fst (generate_maintenance_records condition_df s))).
  { apply Pool. intros st row s' m E Hm.
    destruct (maintenance_step_record st row s' E) as (m0 & Hm0 & _ & C & W).
    rewrite Hm0 in Hm. apply app_inj_tail in Hm as [_ <-]. now split. }
  clear Pool. rewrite Forall_forall in *.
  intros m Hin. destruct (P m Hin) as [C W].
  destruct (Src m Hin) as (row & id & Hrow & R).
  destruct R as (_ & Hr & Hg & Hd & Hk & _ & Hl & Hb & Ht).
  split; [rewrite Hk, Hb; apply resurfacing_iff|].
  split; [exact C|]. split; [exact W|].
  exists row. split; [exact Hrow|].
  split; [repeat split; assumption|].
  split; [exact Hl|]. split; [exact Ht|].
  rewrite Hk. unfold repair_category, repair_plan.
  destruct (_ <? _)%Q; [discriminate|].
  destruct (c_pothole_count row >? 3) eqn:P3; [intros _; lia|].
  destruct (_ >? _)%Q; discriminate.
Qed.

Lemma maintenance_cost_least (s : rng) :
  Forall (fun m => least_cost_of (m_repair_type m) <= m_cost m)
    (maintenance (fst (main s))).
Proof.
  destruct (main_stages s) as (s1 & s2 & s3 & Hn & Hc & Hm & _).
  pose proof (generate_road_network_ok s) as Net. rewrite <- Hn in Net.
  pose proof (generate_pavement_condition_data_ok
                (road_network (fst (main s))) s1) as Cond.
  rewrite <- Hc in Cond.
  pose proof (generate_maintenance_records_source
                (pavement_condition (fst (main s))) s2) as Src.
  rewrite <- Hm in Src.
  rewrite Forall_forall in Net, Cond.
  eapply Forall_impl; [|exact Src].
  intros m (row & id & Hrow & R).
  destruct R as (_ & _ & _ & _ & Hk & -> & _).
  destruct (Cond row Hrow) as [_ (road & Hroad & O)].
  destruct O as (_ & _ & Hl & Ht & _).
  destruct (Net road Hroad) as (_ & Lanes & Vol).
  rewrite Hk. apply total_cost_lower.
  - rewrite Hl. simpl in Lanes. intuition lia.
  - rewrite Ht. exact Vol.
Qed.

(** X9. In a run of [main] no repair is cheaper than its category allows
    on a two-lane segment with a traffic baseline of 1000: a resurfacing
    costs at least 70500, a crack sealing 21150, a preventive maintenance
    11280 and a pothole patch 7050; so every repair costs at least 7050. *)
Theorem maintenance_cost_floor (s : rng) :
  Forall (fun m =>
            (m_repair_type m = resurfacing -> 70500 <= m_cost m)
            /\ (m_repair_type m = crack_sealing -> 21150 <= m_cost m)
            /\ (m_repair_type m = preventive_maintenance -> 11280 <= m_cost m)
            /\ 7050 <= m_cost m)
    (maintenance (fst (main s))).
Proof.
  eapply Forall_impl; [|apply maintenance_cost_least].
  intros m L. cbv beta in L. revert L.
  destruct (m_repair_type m); unfold least_cost_of; intro L;
    (split; [intro T; try discriminate T; lia|]);
    (split; [intro T; try discriminate T; lia|]);
    (split; [intro T; try discriminate T; lia | lia]).
Qed.

End Rules.

(* ------------------------------------------------------------------ *)
(** * Sizes and keys of the tables of a run *)

Lemma range_NoDup (lo hi : Z) : NoDup (range lo hi).
Proof.
  unfold range. apply Injective_map_NoDup; [|apply seq_NoDup].
  intros i j H. lia.
Qed.

Lemma range_length (lo hi : Z) : List.length (range lo hi) = Z.to_nat (hi - lo).
Proof. unfold range. now rewrite length_map, length_seq. Qed.

Lemma NoDup_map_In_inj {A B} (f : A -> B) (l : list A) (a a' : A) :
  NoDup (map f l) -> In a l -> In a' l -> f a = f a' -> a = a'.
Proof.
  induction l as [|x l IH]; simpl; [tauto|].
  intros Hn Ha Ha' E. apply NoDup_cons_iff in Hn as [Hx Hn].
  destruct Ha as [-> | Ha]; destruct Ha' as [-> | Ha']; auto.
  - exfalso. apply Hx. rewrite E. now apply in_map.
  - exfalso. apply Hx. rewrite <- E. now apply in_map.
Qed.

Lemma increasing_NoDup (l : list datetime) :
  StronglySorted (fun a b => toordinal a < toordinal b) l -> NoDup l.
Proof.
  induction 1 as [|x l _ IH Hall]; constructor; [|exact IH].
  intro Hin. rewrite Forall_forall in Hall. specialize (Hall x Hin). lia.
Qed.

(** Distinct segments give distinct (date, road, segment) keys. *)
Lemma condition_keys_NoDup (roads_df : list road_row) :
  NoDup (map rd_segment_id roads_df) ->
  NoDup (flat_map
           (fun date =>
              map (fun r => (date, rd_road_id r, rd_segment_id r)) roads_df)
           report_dates).
Proof.
  intro Hn. apply NoDup_flat_map.
  - apply increasing_NoDup, report_dates_increasing.
  - intros d _. apply (NoDup_map_inv snd). now rewrite map_map.
  - intros d d' b _ _ Hb Hb'.
    apply in_map_iff in Hb as [r [<- _]].
    apply in_map_iff in Hb' as [r' [E _]]. congruence.
Qed.

(** Distinct segments give distinct (road, segment, year, month) keys. *)
Lemma traffic_keys_NoDup (roads_df : list road_row) :
  NoDup (map rd_segment_id roads_df) -> NoDup (traffic_keys roads_df).
Proof.
  intro Hn. unfold traffic_keys. apply NoDup_flat_map.
  - now apply (NoDup_map_inv rd_segment_id).
  - intros road _. apply NoDup_flat_map.
    + apply range_NoDup.
    + intros y _. apply Injective_map_NoDup; [|apply range_NoDup].
      intros m m' E. congruence.
    + intros y y' b _ _ Hb Hb'.
      apply in_map_iff in Hb as [m [<- _]].
      apply in_map_iff in Hb' as [m' [E _]]. congruence.
  - intros road road' b Hr Hr' Hb Hb'.
    apply in_flat_map in Hb as [y [_ Hb]].
    apply in_map_iff in Hb as [m [<- _]].
    apply in_flat_map in Hb' as [y' [_ Hb']].
    apply in_map_iff in Hb' as [m' [E _]].
    apply (NoDup_map_In_inj rd_segment_id roads_df); auto. congruence.
Qed.

Section Sizes.

Context {rng : Type} {NP : Numpy rng}.

Lemma traffic_table_keys (roads_df : list road_row) (s : rng) :
  map traffic_key (fst (generate_traffic_data roads_df s))
  = traffic_keys roads_df.
Proof.
  unfold generate_traffic_data. rewrite bind_run. unfold ret. cbn [fst].
  unfold traffic_keys. rewrite concat_map, flat_map_concat_map. f_equal.
  apply for_each_map. intros road s1. apply traffic_road_keys.
Qed.

Lemma traffic_length (roads_df : list road_row) (s : rng) :
  List.length (fst (generate_traffic_data roads_df s))
  = (60 * List.length roads_df)%nat.
Proof.
  rewrite <- (length_map traffic_key), traffic_table_keys.
  unfold traffic_keys. rewrite length_flat_map.
  rewrite (map_ext _ (fun _ => 60%nat)).
  - induction roads_df as [|r l IH]; simpl in *; lia.
  - intro road. rewrite length_flat_map.
    rewrite (map_ext _ (fun _ => 12%nat))
      by (intro y; now rewrite length_map, range_length).
    reflexivity.
Qed.

Lemma table_lengths_of_run (s : rng) :
  List.length (pavement_condition (fst (main s)))
  = (20 * List.length (road_network (fst (main s))))%nat
  /\ (List.length (maintenance (fst (main s)))
      <= List.length (pavement_condition (fst (main s))))%nat.
Proof.
  destruct (main_stages s) as (s1 & s2 & s3 & _ & Hc & Hm & _).
  split.
  - rewrite Hc at 1. apply condition_length.
  - rewrite Hm. apply maintenance_length_le.
Qed.

(** X10. In a run of [main] the condition table has 20 rows and the
    traffic table 60 rows for every row of the network table, and the
    maintenance table has at most as many rows as the condition table. *)
Theorem table_sizes (s : rng) :
  let d := fst (main s) in
  List.length (pavement_condition d)
  = (20 * List.length (road_network d))%nat
  /\ List.length (traffic_volume d)
     = (60 * List.length (road_network d))%nat
  /\ (List.length (maintenance d)
      <= List.length (pavement_condition d))%nat.
Proof.
  cbv zeta. destruct (main_stages s) as (s1 & s2 & s3 & _ & Hc & Hm & Ht).
  split; [|split].
  - rewrite Hc at 1. apply condition_length.
  - rewrite Ht. apply traffic_length.
  - rewrite Hm. apply maintenance_length_le.
Qed.

(** X11. In a run of [main] the key columns identify the rows: no
    (date, road, segment) triple occurs twice in the condition table and
    no (road, segment, year, month) quadruple twice in the traffic
    table. *)
Theorem table_keys_unique (s : rng) :
  let d := fst (main s) in
  NoDup (map condition_key (pavement_condition d))
  /\ NoDup (map traffic_key (traffic_volume d)).
Proof.
  cbv zeta. destruct (main_stages s) as (s1 & s2 & s3 & Hn & Hc & _ & Ht).
  pose proof (segment_ids_NoDup s) as U. rewrite <- Hn in U.
  split.
  - rewrite Hc, condition_keys. now apply condition_keys_NoDup.
  - rewrite Ht, traffic_table_keys. now apply traffic_keys_NoDup.
Qed.

End Sizes.

(* ------------------------------------------------------------------ *)
(** * Traffic volumes *)

Lemma int_bounds_nonneg (x : Q) :
  (0 <= x)%Q ->
  0 <= Py.int x
  /\ (inject_Z (Py.int x) <= x)%Q
  /\ (x < inject_Z (Py.int x) + 1)%Q.
Proof.
  intro H. split; [now apply int_nonneg|].
  unfold Py.int. rewrite (proj2 (Qle_bool_iff 0 x) H).
  split; [apply Qfloor_le|].
  pose proof (Qlt_floor x) as L. rewrite inject_Z_plus in L. exact L.
Qed.

Lemma int_nonpos (x : Q) : (x <= 0)%Q -> Py.int x <= 0.
Proof.
  intro H. unfold Py.int. destruct (Qle_bool 0 x).
  - rewrite <- (Qfloor_Z 0). now apply Qfloor_resp_le.
  - rewrite <- (Qceiling_Z 0). now apply Qceiling_resp_le.
Qed.

(** The seasonal and growth factors of the years generated. *)
Lemma traffic_factor_bounds (year month : Z) :
  2020 <= year <= 2024 ->
  (9 # 10 <= traffic_seasonal_factor month * growth_factor year
   <= 1188 # 1000)%Q.
Proof.
  intro Hy.
  assert (S : (9 # 10 <= traffic_seasonal_factor month <= 11 # 10)%Q).
  { unfold traffic_seasonal_factor.
    destruct (in_list month [6; 7; 8]); [lra|].
    destruct (in_list month [12; 1; 2]); lra. }
  assert (G : (1 <= growth_factor year <= 108 # 100)%Q).
  { unfold growth_factor.
    assert (Y : (0 <= inject_Z (year - 2020) <= 4)%Q).
    { split; [rewrite <- (Zle_Qle 0) | rewrite <- (Zle_Qle _ 4)]; lia. }
    lra. }
  nra.
Qed.

Section TrafficBounds.

Context {rng : Type} {NP : Numpy rng}.

(** X12. The average daily traffic of a row is not clamped: it has the
    sign of the noise draw.  For a draw [z >= 0], a non-negative baseline
    and a year of 2020..2024 it is not negative and lies between 0.9 and
    1.188 times baseline times [z], up to the truncation; for a draw
    [z <= 0] it is not positive. *)
Theorem traffic_volume_bounds
    (road : road_row) (year month : Z) (s : rng) :
  0 <= rd_traffic_volume road -> 2020 <= year <= 2024 ->
  let z := fst (np_normal 1 (1 # 10) s) in
  let base := inject_Z (rd_traffic_volume road) in
  let avg := t_avg_daily_traffic (fst (traffic_record road year month s)) in
  ((0 <= z)%Q ->
   0 <= avg
   /\ ((9 # 10) * (base * z) - 1 < inject_Z avg)%Q
   /\ (inject_Z avg <= (1188 # 1000) * (base * z))%Q)
  /\ ((z <= 0)%Q -> avg <= 0).
Proof.
  intros Hv Hy. cbv zeta.
  destruct (traffic_record_row road year month s) as [_ ->].
  pose proof (traffic_factor_bounds year month Hy) as F.
  assert (B : (0 <= inject_Z (rd_traffic_volume road))%Q)
    by now rewrite <- (Zle_Qle 0).
  assert (E : (inject_Z (rd_traffic_volume road)
               * traffic_seasonal_factor month * growth_factor year
               * fst (np_normal 1 (1 # 10) s)
               == (inject_Z (rd_traffic_volume road)
                   * fst (np_normal 1 (1 # 10) s))
                  * (traffic_seasonal_factor month * growth_factor year))%Q)
    by ring.
  revert E F.
  generalize (inject_Z (rd_traffic_volume road)
              * traffic_seasonal_factor month * growth_factor year
              * fst (np_normal 1 (1 # 10) s))%Q as p.
  generalize (traffic_seasonal_factor month * growth_factor year)%Q as f.
  revert B.
  generalize (inject_Z (rd_traffic_volume road)) as b.
  generalize (fst (np_normal 1 (1 # 10) s)) as z.
  intros z b B f p E F. split.
  - intro Hz.
    assert (A : (0 <= b * z)%Q) by now apply Qmult_le_0_compat.
    assert (P : (0 <= p)%Q).
    { rewrite E. apply Qmult_le_0_compat; [exact A | lra]. }
    destruct (int_bounds_nonneg p P) as (I0 & I1 & I2).
    split; [exact I0|].
    revert A E I1 I2. generalize (b * z)%Q as a. intros a A E I1 I2.
    split; nra.
  - intro Hz. apply int_nonpos. rewrite E.
    assert (A : (b * z <= 0)%Q) by nra.
    revert A. generalize (b * z)%Q as a. intros a A. nra.
Qed.

End TrafficBounds.

(* ------------------------------------------------------------------ *)
(** * The loop over the reporting dates *)

(** One update moves [current_date] one or three months on, to a month
    of the calendar, and leaves the day as it is. *)
Lemma next_date_advances (d : datetime) :
  1 <= month d <= 12 ->
  1 <= month (next_date d) <= 12
  /\ 12 * year d + month d + 1
     <= 12 * year (next_date d) + month (next_date d)
     <= 12 * year d + month d + 3
  /\ day (next_date d) = day d.
Proof.
  destruct d as [y m dd]. unfold next_date, in_list.
  cbn [existsb year month day]. intro H.
  destruct (Z.eqb_spec m 1), (Z.eqb_spec m 4), (Z.eqb_spec m 7),
    (Z.eqb_spec m 10), (Z.eqb_spec m 12);
    cbn [orb year month day]; lia.
Qed.

Lemma date_leb_end (d : datetime) :
  1 <= month d <= 12 -> 24300 < 12 * year d + month d ->
  date_leb d end_date = false.
Proof.
  intros Hm H. unfold date_leb, end_date. cbn [year month day].
  destruct (Z.ltb_spec (year d) 2024); [lia|].
  destruct (Z.eqb_spec (year d) 2024); [lia|]. reflexivity.
Qed.

(** X13. The loop over the reporting dates terminates from every start
    date whose day exists in every month: once the fuel exceeds the
    number of months left to December 2024, more fuel changes nothing.
    Every date visited is on or before the end date, on the start's day
    of the month. *)
Theorem dates_while_terminates (fuel extra : nat) (d : datetime) :
  1 <= month d <= 12 -> 1 <= day d <= 28 ->
  24300 - (12 * year d + month d) < Z.of_nat fuel ->
  dates_while (fuel + extra) d = dates_while fuel d
  /\ Forall (fun x => date_leb x end_date = true /\ day x = day d
                      /\ 1 <= month x <= 12)
       (dates_while fuel d).
Proof.
  intros Hm Hd. clear Hd. revert d Hm.
  induction fuel as [|fuel IH]; intros d Hm H.
  - split; [|constructor]. destruct extra as [|extra]; [reflexivity|].
    simpl. rewrite date_leb_end; [reflexivity | exact Hm | lia].
  - simpl. destruct (date_leb d end_date) eqn:E; [|split; [reflexivity|constructor]].
    destruct (next_date_advances d Hm) as (Hm' & Hi & Hday).
    destruct (Z.le_gt_cases (12 * year d + month d) 24300) as [L | G];
      [|rewrite date_leb_end in E; [discriminate | exact Hm | lia]].
    destruct (IH (next_date d) Hm') as [IH1 IH2]; [lia|].
    split; [now rewrite IH1|].
    constructor; [auto|].
    eapply Forall_impl; [|exact IH2].
    intros x (X1 & X2 & X3). rewrite <- Hday. auto.
Qed.

(* ------------------------------------------------------------------ *)
(** * The outcome of the script *)

Lemma sumQ_bounds (a b : Q) (xs : list Q) :
  Forall (fun x => a <= x <= b)%Q xs ->
  (a * inject_Z (Z.of_nat (List.length xs)) <= sumQ xs
   <= b * inject_Z (Z.of_nat (List.length xs)))%Q.
Proof.
  induction 1 as [|x xs Hx _ IH].
  - simpl. change (inject_Z 0) with 0%Q. lra.
  - cbn [sumQ fold_right List.length]. fold (sumQ xs).
    rewrite Nat2Z.inj_succ. unfold Z.succ. rewrite inject_Z_plus.
    change (inject_Z 1) with 1%Q.
    revert IH. generalize (inject_Z (Z.of_nat (List.length xs))) as n.
    generalize (sumQ xs) as t. intros t n IH. lra.
Qed.

(** The mean of a non-empty column lies between bounds of its entries. *)
Lemma meanQ_bounds (a b : Q) (xs : list Q) :
  xs <> [] -> Forall (fun x => a <= x <= b)%Q xs ->
  (a <= meanQ xs <= b)%Q.
Proof.
  intros Hne H. pose proof (sumQ_bounds a b xs H) as [L U].
  assert (P : (0 < inject_Z (Z.of_nat (List.length xs)))%Q).
  { rewrite <- (Zlt_Qlt 0). destruct xs; [congruence | simpl; lia]. }
  unfold meanQ. split.
  - now apply Qle_shift_div_l.
  - apply Qle_shift_div_r; [exact P | exact U].
Qed.

Lemma sumZ_lower (a : Z) (xs : list Z) :
  Forall (fun x => a <= x) xs -> a * Z.of_nat (List.length xs) <= sumZ xs.
Proof.
  induction 1 as [|x xs Hx _ IH].
  - simpl. lia.
  - cbn [sumZ fold_right List.length]. fold (sumZ xs). lia.
Qed.

Lemma meanQ_lower (a : Z) (xs : list Z) :
  xs <> [] -> Forall (fun x => a <= x) xs ->
  (inject_Z a <= meanQ (map inject_Z xs))%Q.
Proof.
  intros Hne H.
  assert (S : (inject_Z a * inject_Z (Z.of_nat (List.length (map inject_Z xs)))
               <= sumQ (map inject_Z xs))%Q).
  { clear Hne. induction H as [|x xs Hx _ IH].
    - simpl. change (inject_Z 0) with 0%Q. lra.
    - cbn [map sumQ fold_right List.length]. fold (sumQ (map inject_Z xs)).
      rewrite Nat2Z.inj_succ. unfold Z.succ. rewrite inject_Z_plus.
      change (inject_Z 1) with 1%Q.
      assert (X : (inject_Z a <= inject_Z x)%Q) by now rewrite <- Zle_Qle.
      revert IH X.
      generalize (inject_Z (Z.of_nat (List.length (map inject_Z xs)))) as n.
      generalize (sumQ (map inject_Z xs)) as t.
      generalize (inject_Z a) as a'. generalize (inject_Z x) as x'.
      intros x' a' t n IH X. lra. }
  assert (P : (0 < inject_Z (Z.of_nat (List.length (map inject_Z xs))))%Q).
  { rewrite <- (Zlt_Qlt 0). destruct xs; [congruence | simpl; lia]. }
  unfold meanQ. now apply Qle_shift_div_l.
Qed.

Section Outcome.

Context {rng : Type} {NP : Numpy rng}.

(** X14. When no road gets a segment the script stops in the maintenance
    stage with [KeyError: 'segment_id']; when there are segments but no
    observation triggers a repair it stops in the summary with
    [KeyError: 'cost']; otherwise it returns the four tables of [main]
    with a summary in which the average condition score lies in
    [0, 100], the average repair cost is at least 7050 and the total
    cost at least 7050 per repair. *)
Theorem script_outcome (s : rng) :
  let d := fst (main s) in
  (road_network d = [] ->
   fst (main_run s) = Raised (KeyError "segment_id"))
  /\ (road_network d <> [] -> maintenance d = [] ->
      fst (main_run s) = Raised (KeyError "cost"))
  /\ (road_network d <> [] -> maintenance d <> [] ->
      exists sm,
        fst (main_run s) = Returned (d, sm)
        /\ total_segments sm = List.length (road_network d)
        /\ condition_records sm = (20 * total_segments sm)%nat
        /\ (0 < maintenance_count sm <= condition_records sm)%nat
        /\ (0 <= average_condition_score sm <= 100)%Q
        /\ (7050 <= average_repair_cost sm)%Q
        /\ 7050 * Z.of_nat (maintenance_count sm)
           <= total_maintenance_cost sm).
Proof.
  cbv zeta.
  pose proof (table_lengths_of_run s) as (Lc & Lm).
  pose proof (maintenance_cost_least s) as Cost.
  destruct (main_stages s) as (s1 & _ & _ & _ & Hc & _).
  pose proof (generate_pavement_condition_data_ok
                (road_network (fst (main s))) s1) as Cond.
  rewrite <- Hc in Cond. clear Hc s1.
  revert Lc Lm Cost Cond.
  unfold main_run, main. rewrite !bind_run. unfold ret.
  cbn [fst road_network pavement_condition maintenance].
  set (roads := fst (generate_road_network s)).
  set (s1 := snd (generate_road_network s)).
  set (cond := fst (generate_pavement_condition_data roads s1)).
  set (s2 := snd (generate_pavement_condition_data roads s1)).
  intros Lc Lm Cost Cond.
  destruct cond as [|c cond'] eqn:Ec.
  - (* no observation: no segment *)
    assert (R : roads = []) by (destruct roads; [reflexivity | simpl in Lc; lia]).
    split; [reflexivity|]. split; intros N; contradiction.
  - assert (R : roads <> []) by (intros ->; simpl in Lc; lia).
    split; [intro; contradiction|].
    cbn [column]. rewrite !bind_run. cbn [fst snd].
    set (maint := fst (generate_maintenance_records (c :: cond') s2)) in *.
    set (s3 := snd (generate_maintenance_records (c :: cond') s2)).
    set (traffic := fst (generate_traffic_data roads s3)).
    destruct roads as [|r roads'] eqn:Er; [congruence|].
    cbn [column]. destruct maint as [|m maint'] eqn:Em.
    + split; [reflexivity|]. intros _ N. contradiction.
    + split; [intros _ N; discriminate|]. intros _ _.
      cbn [column]. eexists. split; [reflexivity|].
      cbn [total_segments condition_records maintenance_count
           average_condition_score average_repair_cost
           total_maintenance_cost].
      split; [reflexivity|]. split; [exact Lc|].
      split; [simpl in *; lia|].
      split; [|split].
      * apply meanQ_bounds; [discriminate|].
        rewrite Forall_map. eapply Forall_impl; [|exact Cond].
        intros x [(S & _) _]. exact S.
      * apply (meanQ_lower 7050); [discriminate|].
        rewrite Forall_map. eapply Forall_impl; [|exact Cost].
        intros x L. cbv beta in L. revert L.
        destruct (m_repair_type x); unfold least_cost_of; lia.
      * rewrite <- (length_map m_cost). apply sumZ_lower.
        rewrite Forall_map. eapply Forall_impl; [|exact Cost].
        intros x L. cbv beta in L. revert L.
        destruct (m_repair_type x); unfold least_cost_of; lia.
Qed.

End Outcome.

(** With the degenerate generator no road has a segment, and the script
    stops at the first column lookup. *)
Example degenerate_run :
  fst (generate_road_network tt) = []
  /\ fst (main_run tt) = Raised (KeyError "segment_id").
Proof. split; vm_compute; reflexivity. Qed.

(* ------------------------------------------------------------------ *)
(** * The warehouse setup *)

Module SetupFacts.

Import Setup.

Section Warehouse.

Variable db : Type.
Variable run : string -> db -> string + db.
Variable config : string -> option string.
Variables database schema raw processed models : string.

Hypothesis has_database : config "database"%string = Some database.
Hypothesis has_schema : config "schema"%string = Some schema.
Hypothesis has_raw : config "raw_data_stage"%string = Some raw.
Hypothesis has_processed :
  config "processed_data_stage"%string = Some processed.

Ltac script_step :=
  cbv [try_reraise_finally andthen open_cursor close_cursor execute print
       fst snd server executed stdout cursor_open].

Ltac unfold_script :=
  unfold create_snowflake_objects, main, create_body; unfold lookup;
  rewrite ?has_database, ?has_schema, ?has_raw, ?has_processed.

Ltac next_statement :=
  match goal with
  | |- context [run ?sql ?srv] =>
      let E := fresh "E" in
      destruct (run sql srv) eqn:E; script_step
  end.

Ltac accepted accepts :=
  match goal with
  | |- context [run ?sql ?srv] =>
      let E := fresh "E" in
      destruct (accepts sql srv) as [? E]; rewrite E; script_step
  end.

Ltac count_sent :=
  first [ exists 0%nat; split; [now rewrite ?app_nil_r|]
        | exists 1%nat; split; [now rewrite <- ?app_assoc|]
        | exists 2%nat; split; [now rewrite <- ?app_assoc|]
        | exists 3%nat; split; [now rewrite <- ?app_assoc|]
        | exists 4%nat; split; [now rewrite <- ?app_assoc|]
        | exists 5%nat; split; [now rewrite <- ?app_assoc|]
        | exists 6%nat; split; [now rewrite <- ?app_assoc|]
        | exists 7%nat; split; [now rewrite <- ?app_assoc|]
        | exists 8%nat; split; [now rewrite <- ?app_assoc|]
        | exists 9%nat; split; [now rewrite <- ?app_assoc|]
        | exists 10%nat; split; [now rewrite <- ?app_assoc|]
        | exists 11%nat; split; [now rewrite <- ?app_assoc|] ].

(** X15. With the five keys it reads in the configuration,
    [create_snowflake_objects] always leaves the cursor closed; the
    statements the warehouse accepted are the first [n] of the eleven of
    a complete setup, in order, and nothing is undone; it returns exactly
    when all eleven were accepted, and otherwise raises the error of the
    rejected statement again after printing it as the last line. *)
Theorem create_outcome (w : world db) :
  config "models_stage"%string = Some models ->
  let r := fst (create_snowflake_objects db run config w) in
  let w' := snd (create_snowflake_objects db run config w) in
  cursor_open db w' = false
  /\ exists n,
      executed db w'
      = executed db w
        ++ firstn n (statements database schema raw processed models)
      /\ (r = Returned tt <-> n = 11%nat)
      /\ (forall e,
            r = Raised e ->
            (n < 11)%nat
            /\ (exists message, e = DatabaseError message)
            /\ last (stdout db w') ""%string
               = ("❌ Error creating Snowflake objects: " ++ exn_text e)%string).
Proof.
  intro has_models. destruct w as [srv sent out opened]. cbv zeta.
  unfold_script. rewrite ?has_models. script_step.
  repeat next_statement;
    (split; [reflexivity|]); count_sent;
    (split; [split; intro H; (discriminate H || reflexivity || lia)|]);
    intros e H; try discriminate H;
    injection H as <-;
    (split; [lia|]); (split; [eexists; reflexivity|]);
    cbn [exn_text]; now rewrite last_last.
Qed.

(** X16. A key missing from the configuration stops the setup where it
    is first read, with what was created before left in place: without
    [models_stage], on a warehouse that accepts every statement, the
    database, the schema and the first two stages are created, then
    [KeyError: 'models_stage'] is printed and raised, and the cursor is
    closed. *)
Theorem create_missing_stage (w : world db) :
  config "models_stage"%string = None ->
  (forall sql srv, exists srv', run sql srv = inr srv') ->
  let r := fst (create_snowflake_objects db run config w) in
  let w' := snd (create_snowflake_objects db run config w) in
  r = Raised (KeyError "models_stage")
  /\ executed db w'
     = executed db w
       ++ firstn 6 (statements database schema raw processed "")
  /\ stdout db w'
     = stdout db w
       ++ [("✅ Database " ++ database ++ " created/verified")%string;
           ("✅ Schema " ++ schema ++ " created/verified")%string;
           "❌ Error creating Snowflake objects: 'models_stage'"%string]
  /\ cursor_open db w' = false.
Proof.
  intros no_models accepts. destruct w as [srv sent out opened]. cbv zeta.
  unfold_script. rewrite ?no_models. script_step.
  repeat accepted accepts.
  cbn [exn_text firstn statements].
  repeat split; now rewrite <- ?app_assoc.
Qed.

(** X18. On a warehouse that accepts every statement, with the five
    keys in the configuration, [create_snowflake_objects] returns after
    sending the eleven statements in order, prints its five confirmation
    lines and no error, and closes the cursor. *)
Theorem create_complete (w : world db) :
  config "models_stage"%string = Some models ->
  (forall sql srv, exists srv', run sql srv = inr srv') ->
  let r := fst (create_snowflake_objects db run config w) in
  let w' := snd (create_snowflake_objects db run config w) in
  r = Returned tt
  /\ executed db w'
     = executed db w ++ statements database schema raw processed models
  /\ stdout db w'
     = stdout db w
       ++ [("✅ Database " ++ database ++ " created/verified")%string;
           ("✅ Schema " ++ schema ++ " created/verified")%string;
           "✅ Data stages created/verified"%string;
           "✅ Data tables created/verified"%string;
           "✅ Analysis views created/verified"%string]
  /\ cursor_open db w' = false.
Proof.
  intros has_models accepts. destruct w as [srv sent out opened]. cbv zeta.
  unfold_script. rewrite ?has_models. script_step.
  repeat accepted accepts.
  unfold statements.
  repeat split; now rewrite <- ?app_assoc.
Qed.

(** X17. With the five keys above and [models_stage] in the
    configuration, [main] sends no statement to the warehouse.  If
    [warehouse_size] is there too it returns, and the commands it prints
    are the first seven statements of [create_snowflake_objects], each
    followed by a semicolon; if not, it raises [KeyError:
    'warehouse_size'] before printing any command, although
    [create_snowflake_objects] never reads that key. *)
Theorem main_prints_statements (w : world db) :
  config "models_stage"%string = Some models ->
  let r := fst (main db config w) in
  let w' := snd (main db config w) in
  executed db w' = executed db w /\ server db w' = server db w
  /\ (forall size,
        config "warehouse_size"%string = Some size ->
        r = Returned tt
        /\ stdout db w'
           = stdout db w
             ++ ["Setting up SmartPave Analytics in Snowflake..."%string;
                 rule; "Configuration loaded:"%string;
                 ("  Database: " ++ database)%string;
                 ("  Schema: " ++ schema)%string;
                 ("  Warehouse: " ++ size)%string;
                 "
To complete setup, run these SQL commands in Snowflake:"%string;
                 rule]
             ++ map (fun sql => (sql ++ ";")%string)
                  (firstn 7 (statements database schema raw processed models))
             ++ ["
✅ Setup script completed!"%string;
                 "Next steps:"%string;
                 "1. Run the SQL commands above in Snowflake"%string;
                 "2. Upload data files to the stages"%string;
                 "3. Run the notebooks to begin analysis"%string])
  /\ (config "warehouse_size"%string = None ->
      r = Raised (KeyError "warehouse_size")
      /\ stdout db w'
         = stdout db w
           ++ ["Setting up SmartPave Analytics in Snowflake..."%string;
               rule; "Configuration loaded:"%string;
               ("  Database: " ++ database)%string;
               ("  Schema: " ++ schema)%string]).
Proof.
  intro has_models. destruct w as [srv sent out opened]. cbv zeta.
  unfold_script. rewrite ?has_models.
  destruct (config "warehouse_size"%string) as [size|]; script_step.
  - split; [reflexivity|]. split; [reflexivity|]. split.
    + intros size' [= <-]. split; [reflexivity|].
      cbn [firstn statements map app].
      rewrite <- !app_assoc. cbn [app].
      reflexivity.
    + discriminate.
  - split; [reflexivity|]. split; [reflexivity|]. split.
    + discriminate.
    + intros _. split; [reflexivity|].
      now rewrite <- !app_assoc.
Qed.

End Warehouse.

End SetupFacts.

(* ------------------------------------------------------------------ *)
(** * Further worked examples *)

(** A repair at 70 raises the last known condition to 90; the next
    observation, at 72, is repaired again. *)
Lemma repair_follows_repair_witness :
  ((c_condition_score (observation 72 0 9 (mkdate 2020 4 1))
    < Py.min 100 (c_condition_score (steady_observation start_date) + 20)
      - 15)%Q ->
   needs_repair
     (last_repair_date
        (fst (maintenance_step (mkscan [] 1 None 100)
                (steady_observation start_date) 42%N)))
     (last_condition
        (fst (maintenance_step (mkscan [] 1 None 100)
                (steady_observation start_date) 42%N)))
     (observation 72 0 9 (mkdate 2020 4 1)) = true)
  /\ ((c_condition_score (steady_observation start_date) <= 80)%Q ->
      (c_condition_score (observation 72 0 9 (mkdate 2020 4 1))
       < c_condition_score (steady_observation start_date) + 5)%Q ->
      needs_repair
        (last_repair_date
           (fst (maintenance_step (mkscan [] 1 None 100)
                   (steady_observation start_date) 42%N)))
        (last_condition
           (fst (maintenance_step (mkscan [] 1 None 100)
                   (steady_observation start_date) 42%N)))
        (observation 72 0 9 (mkdate 2020 4 1)) = true).
Proof.
  apply (repair_follows_repair (mkscan [] 1 None 100)
           (steady_observation start_date)
           (observation 72 0 9 (mkdate 2020 4 1)) 42%N).
  reflexivity.
Defined.

(** A collector road with a baseline of 15000 in July 2022. *)
Definition sample_road : road_row :=
  mkroad "R001" "R001_S001" Collector 4 (398283 # 10000)
    (- (985795 # 10000)) 15000 (3 # 10).

(** The traffic table changes with the condition table.  Two condition
    tables of one observation of the sample road: at a score of 90
    nothing is repaired and the maintenance pass draws nothing; at a score
    of 70 the repair draws a contractor and a noise.  The traffic stage
    that follows starts from another generator state and, for the same
    network table, gives another table. *)
Lemma traffic_depends_on_condition_table :
  let quiet := [observation 90 0 9 start_date] in
  let worn := [observation 70 0 9 start_date] in
  let after condition_df :=
    snd (generate_maintenance_records condition_df 42%N) in
  fst (generate_maintenance_records quiet 42%N) = []
  /\ List.length (fst (generate_maintenance_records worn 42%N)) = 1%nat
  /\ after quiet <> after worn
  /\ map t_avg_daily_traffic
       (firstn 3 (fst (generate_traffic_data [sample_road] (after quiet))))
     <> map t_avg_daily_traffic
          (firstn 3 (fst (generate_traffic_data [sample_road] (after worn))))
  /\ fst (generate_traffic_data [sample_road] (after quiet))
     <> fst (generate_traffic_data [sample_road] (after worn)).
Proof.
  cbv zeta. split; [vm_compute; reflexivity|].
  split; [vm_compute; reflexivity|].
  split; [vm_compute; discriminate|].
  split; [vm_compute; discriminate|].
  intro H.
  apply (f_equal (fun table => map t_avg_daily_traffic (firstn 3 table))) in H.
  revert H. vm_compute. discriminate.
Qed.

Lemma traffic_volume_bounds_witness :
  let z := fst (np_normal 1 (1 # 10) 42%N) in
  let base := inject_Z (rd_traffic_volume sample_road) in
  let avg :=
    t_avg_daily_traffic (fst (traffic_record sample_road 2022 7 42%N)) in
  ((0 <= z)%Q ->
   0 <= avg
   /\ ((9 # 10) * (base * z) - 1 < inject_Z avg)%Q
   /\ (inject_Z avg <= (1188 # 1000) * (base * z))%Q)
  /\ ((z <= 0)%Q -> avg <= 0).
Proof.
  apply (traffic_volume_bounds sample_road 2022 7 42%N).
  - discriminate.
  - split; discriminate.
Defined.

Lemma dates_while_terminates_witness :
  dates_while (64 + 936) start_date = dates_while 64 start_date
  /\ Forall (fun x => date_leb x end_date = true /\ day x = day start_date
                      /\ 1 <= month x <= 12)
       (dates_while 64 start_date).
Proof.
  apply (dates_while_terminates 64 936 start_date).
  - split; discriminate.
  - split; discriminate.
  - reflexivity.
Defined.

(** A warehouse that rejects the schema: two statements stay executed. *)
Lemma create_outcome_witness :
  let r := fst (Setup.create_snowflake_objects unit Setup.reject_schema
                  Setup.demo Setup.fresh) in
  let w' := snd (Setup.create_snowflake_objects unit Setup.reject_schema
                   Setup.demo Setup.fresh) in
  Setup.cursor_open unit w' = false
  /\ exists n,
      Setup.executed unit w'
      = Setup.executed unit Setup.fresh
        ++ firstn n (Setup.statements "SMARTPAVE" "ANALYTICS" "RAW_STAGE"
                       "PROCESSED_STAGE" "MODELS_STAGE")
      /\ (r = Returned tt <-> n = 11%nat)
      /\ (forall e,
            r = Raised e ->
            (n < 11)%nat
            /\ (exists message, e = DatabaseError message)
            /\ last (Setup.stdout unit w') ""%string
               = ("❌ Error creating Snowflake objects: "
                  ++ Setup.exn_text e)%string).
Proof.
  exact (SetupFacts.create_outcome unit Setup.reject_schema Setup.demo
           "SMARTPAVE" "ANALYTICS" "RAW_STAGE" "PROCESSED_STAGE"
           "MODELS_STAGE" eq_refl eq_refl eq_refl eq_refl Setup.fresh
           eq_refl).
Defined.

Lemma create_missing_stage_witness :
  let r := fst (Setup.create_snowflake_objects unit Setup.accept_all
                  Setup.demo_without_models Setup.fresh) in
  let w' := snd (Setup.create_snowflake_objects unit Setup.accept_all
                   Setup.demo_without_models Setup.fresh) in
  r = Raised (KeyError "models_stage")
  /\ Setup.executed unit w'
     = Setup.executed unit Setup.fresh
       ++ firstn 6 (Setup.statements "SMARTPAVE" "ANALYTICS" "RAW_STAGE"
                      "PROCESSED_STAGE" "")
  /\ Setup.stdout unit w'
     = Setup.stdout unit Setup.fresh
       ++ [("✅ Database " ++ "SMARTPAVE" ++ " created/verified")%string;
           ("✅ Schema " ++ "ANALYTICS" ++ " created/verified")%string;
           "❌ Error creating Snowflake objects: 'models_stage'"%string]
  /\ Setup.cursor_open unit w' = false.
Proof.
  apply (SetupFacts.create_missing_stage unit Setup.accept_all
           Setup.demo_without_models
           "SMARTPAVE" "ANALYTICS" "RAW_STAGE" "PROCESSED_STAGE"
           eq_refl eq_refl eq_refl eq_refl Setup.fresh eq_refl).
  intros sql srv. exists srv. reflexivity.
Defined.

Lemma main_prints_statements_witness :
  Setup.executed unit (snd (Setup.main unit Setup.demo Setup.fresh))
  = Setup.executed unit Setup.fresh
  /\ fst (Setup.main unit Setup.demo Setup.fresh) = Returned tt.
Proof.
  destruct (SetupFacts.main_prints_statements unit Setup.demo
              "SMARTPAVE" "ANALYTICS" "RAW_STAGE" "PROCESSED_STAGE"
              "MODELS_STAGE" eq_refl eq_refl eq_refl eq_refl Setup.fresh
              eq_refl) as (E & _ & R & _).
  split; [exact E|]. exact (proj1 (R "MEDIUM"%string eq_refl)).
Defined.

(** The rejected schema, run: the error is the warehouse's, and the
    database statements stay executed. *)
Example rejected_schema_run :
  let r := Setup.create_snowflake_objects unit Setup.reject_schema
             Setup.demo Setup.fresh in
  fst r = Raised (DatabaseError "insufficient privileges")
  /\ Setup.executed unit (snd r)
     = ["CREATE DATABASE IF NOT EXISTS SMARTPAVE"%string;
        "USE DATABASE SMARTPAVE"%string]
  /\ Setup.cursor_open unit (snd r) = false.
Proof. repeat split. Qed.

Lemma create_complete_witness :
  let r := fst (Setup.create_snowflake_objects unit Setup.accept_all
                  Setup.demo Setup.fresh) in
  let w' := snd (Setup.create_snowflake_objects unit Setup.accept_all
                   Setup.demo Setup.fresh) in
  r = Returned tt
  /\ Setup.executed unit w'
     = Setup.executed unit Setup.fresh
       ++ Setup.statements "SMARTPAVE" "ANALYTICS" "RAW_STAGE"
            "PROCESSED_STAGE" "MODELS_STAGE"
  /\ Setup.stdout unit w'
     = Setup.stdout unit Setup.fresh
       ++ [("✅ Database " ++ "SMARTPAVE" ++ " created/verified")%string;
           ("✅ Schema " ++ "ANALYTICS" ++ " created/verified")%string;
           "✅ Data stages created/verified"%string;
           "✅ Data tables created/verified"%string;
           "✅ Analysis views created/verified"%string]
  /\ Setup.cursor_open unit w' = false.
Proof.
  apply (SetupFacts.create_complete unit Setup.accept_all Setup.demo
           "SMARTPAVE" "ANALYTICS" "RAW_STAGE" "PROCESSED_STAGE"
           "MODELS_STAGE" eq_refl eq_refl eq_refl eq_refl Setup.fresh
           eq_refl).
  intros sql srv. exists srv. reflexivity.
Defined.
